(** * daemoniser: the daemon lifecycle manager and the service controller

    A shallow embedding of [daemoniser/daemon.py] (class [Daemon]) and of
    [daemoniser/service.py] ([Service.check_args]).  The Python code is
    stateful and raises exceptions; it is embedded in a state-and-exception
    monad over the instance it runs on and the process environment it
    touches (files, descriptors, log records, system calls). *)

From Stdlib Require Import ZArith List Ascii String Bool Lia.
From stdpp Require Import base option list gmap strings pretty.

Local Open Scope string_scope.
Local Open Scope list_scope.
Local Open Scope Z_scope.

(** ** Python strings and the builtins the code calls on them *)

Module py.

(** The characters a format string needs and a Rocq literal cannot hold. *)
Definition nl : string := String (ascii_of_nat 10) EmptyString.
Definition dq : string := String (ascii_of_nat 34) EmptyString.

(** [str.isspace] on one byte, C locale: blank, and tab to carriage return. *)
Definition isspace (c : ascii) : bool :=
  let n := nat_of_ascii c in
  ((n =? 32) || ((9 <=? n) && (n <=? 13)))%nat.

Fixpoint lstrip (s : string) : string :=
  match s with
  | EmptyString => EmptyString
  | String c s' => if isspace c then lstrip s' else s
  end.

Fixpoint rstrip (s : string) : string :=
  match s with
  | EmptyString => EmptyString
  | String c s' =>
      match rstrip s' with
      | EmptyString => if isspace c then EmptyString else String c EmptyString
      | r => String c r
      end
  end.

(** [str.strip()]: white space removed at both ends. *)
Definition strip (s : string) : string := lstrip (rstrip s).

Definition digit (c : ascii) : option Z :=
  let n := nat_of_ascii c in
  if ((48 <=? n) && (n <=? 57))%nat then Some (Z.of_nat (n - 48)) else None.

Fixpoint digits (acc : Z) (s : string) : option Z :=
  match s with
  | EmptyString => Some acc
  | String c s' =>
      match digit c with
      | Some d => digits (10 * acc + d) s'
      | None => None
      end
  end.

Definition unsigned (s : string) : option Z :=
  match s with
  | EmptyString => None
  | _ => digits 0 s
  end.

Definition is_plus (c : ascii) : bool := (nat_of_ascii c =? 43)%nat.
Definition is_minus (c : ascii) : bool := (nat_of_ascii c =? 45)%nat.

(** A sign, if there is one, then white space, if there is any, then the
    digits: the interpreter's [PyOS_strtol] takes the sign and hands the
    rest to [PyOS_strtoul], which skips white space once more. *)
Definition signed (s : string) : option Z :=
  match s with
  | String c s' =>
      if is_plus c then unsigned (lstrip s')
      else if is_minus c then Z.opp <$> unsigned (lstrip s')
      else unsigned s
  | EmptyString => None
  end.

(** [int(s)] for a byte string, base 10, as the interpreter of the source
    (Python 2) computes it: white space, an optional sign, white space,
    decimal digits, at least one, white space, and nothing else; the value
    has no bound.  [None] stands for [ValueError].  A NUL byte is no white
    space, sign or digit, so a text that holds one is refused here as it
    is there. *)
Definition int (s : string) : option Z := signed (strip s).

Definition hexdigit (n : nat) : ascii :=
  ascii_of_nat (if (n <? 10)%nat then 48 + n else 87 + n).

Fixpoint mem (c : ascii) (s : string) : bool :=
  match s with
  | EmptyString => false
  | String c' s' => bool_decide (c = c') || mem c s'
  end.

Fixpoint escape (quote : ascii) (s : string) : string :=
  match s with
  | EmptyString => EmptyString
  | String c s' =>
      let n := nat_of_ascii c in
      (if bool_decide (c = quote) || (n =? 92)%nat then String (ascii_of_nat 92) (String c EmptyString)
       else if (n =? 9)%nat then "\t"
       else if (n =? 10)%nat then "\n"
       else if (n =? 13)%nat then "\r"
       else if ((n <? 32) || (127 <=? n))%nat then
         "\x" +:+ String (hexdigit (n / 16)) (String (hexdigit (n mod 16)) EmptyString)
       else String c EmptyString) +:+ escape quote s'
  end.

(** [repr(s)] of a byte string: single quotes, unless the string holds one
    and no double quote. *)
Definition repr (s : string) : string :=
  let sq := ascii_of_nat 39 in
  let q := if mem sq s && negb (mem (ascii_of_nat 34) s) then ascii_of_nat 34 else sq in
  String q (escape q s +:+ String q EmptyString).

(** The text up to the first NUL byte: what a C function sees of it. *)
Fixpoint c_string (s : string) : string :=
  match s with
  | EmptyString => EmptyString
  | String c s' => if (nat_of_ascii c =? 0)%nat then EmptyString else String c (c_string s')
  end.

(** [s[:n]] *)
Fixpoint first (n : nat) (s : string) : string :=
  match n, s with
  | S n', String c s' => String c (first n' s')
  | _, _ => EmptyString
  end.

(** [str(error)] of the [ValueError] that [int(s)] raises when it refuses
    [s].  The interpreter parses the text as a C string: if that fails,
    the message shows the C string from its first character that is no
    white space, cut at 200 characters; if it succeeds, the parse ended
    at a NUL byte short of the text's end, and the message says so. *)
Definition int_error (s : string) : string :=
  match int (c_string s) with
  | None => "invalid literal for int() with base 10: "
            +:+ repr (first 200 (lstrip (c_string s)))
  | Some _ => "null byte in argument for int()"
  end.

(** ['%s' % x] for an integer or [None]. *)
Definition str_opt (x : option Z) : string :=
  match x with
  | Some n => pretty n
  | None => "None"
  end.

(** Truth value of an attribute that holds an integer or [None]. *)
Definition truthy (x : option Z) : bool :=
  match x with
  | Some n => negb (n =? 0)%Z
  | None => false
  end.

(** Truth value of an [optparse] flag: [None] unless the flag was given. *)
Definition flag (x : option bool) : bool :=
  match x with
  | Some b => b
  | None => false
  end.

End py.

(** ** What the specification calls a decimal integer

    Written from the specification's words, to be compared with [py.int]:
    an optional sign and then decimal digits, at least one, nothing else.
    [sign_blanks_digits] is the wider set of texts that [py.int] takes
    once they are stripped: white space may follow the sign. *)

Fixpoint all_digits (s : string) : bool :=
  match s with
  | EmptyString => true
  | String c s' => bool_decide (is_Some (py.digit c)) && all_digits s'
  end.

Definition nonempty (s : string) : bool :=
  match s with
  | EmptyString => false
  | _ => true
  end.

Definition decimal_integer (s : string) : bool :=
  match s with
  | EmptyString => false
  | String c s' =>
      if py.is_plus c || py.is_minus c then nonempty s' && all_digits s'
      else all_digits s
  end.

Definition sign_blanks_digits (s : string) : bool :=
  match s with
  | EmptyString => false
  | String c s' =>
      if py.is_plus c || py.is_minus c
      then nonempty (py.lstrip s') && all_digits (py.lstrip s')
      else all_digits s
  end.


(** ** Exceptions, the process environment and the monad *)

Inductive exn :=
| DaemonError (msg : string)
| ValueError (msg : string)
| TypeError (msg : string)
| IOError (errno : Z) (path : string)
| OSError (errno : Z)
| SystemExit (code : Z)
| Uncaught (name : string).

(** The errno values that occur below. *)
Definition ENOENT : Z := 2.
Definition ESRCH : Z := 3.
Definition EBADF : Z := 9.
Definition EISDIR : Z := 21.

Definition SIGTERM : Z := 15.

Inductive level := DEBUG | INFO | WARNING | ERROR.

(** A logging handler, as [daemonize] looks at it: whether it has a
    [stream], whether that has a [fileno], and the descriptor it gives. *)
Record handler := Handler { stream : option (option Z) }.

Definition StreamHandler (fd : Z) : handler := Handler (Some (Some fd)).
Definition NullHandler : handler := Handler None.

Inductive node := File (content : string) | Dir.

(** What [os.fork] gives the process that is followed. *)
Inductive forked :=
| InParent (child : Z)
| InChild (mypid : Z)
| ForkFails (errno : Z).

(** Calls whose effect lies outside the state kept here. *)
Inductive event :=
| Fork
| Setsid
| Kill (pid sig : Z)
| Sleep (secs : Z)
| SetConsole
| SetLogLevel (name : string).

Inductive hook := Delpid.

Record World := {
  fs : gmap string node;
  fds : gmap Z string;
  cwd : string;
  umask : Z;
  getpid : Z;
  handlers : list handler;
  logs : list (level * string);
  stderr : list string;
  atexit : list hook;
  trace : list event;
  (* what the operating system will answer *)
  forks : list forked;
  kill_errno : Z → Z → option Z;
  open_errno : string → option Z;
  strerror : Z → string;
  nofile_hard : Z;
  prog : string
}.

Definition with_fs (f : gmap string node → gmap string node) (w : World) : World :=
  {| fs := f (fs w); fds := fds w; cwd := cwd w; umask := umask w; getpid := getpid w;
     handlers := handlers w; logs := logs w; stderr := stderr w; atexit := atexit w;
     trace := trace w; forks := forks w; kill_errno := kill_errno w;
     open_errno := open_errno w; strerror := strerror w; nofile_hard := nofile_hard w;
     prog := prog w |}.

Definition with_fds (f : gmap Z string → gmap Z string) (w : World) : World :=
  {| fs := fs w; fds := f (fds w); cwd := cwd w; umask := umask w; getpid := getpid w;
     handlers := handlers w; logs := logs w; stderr := stderr w; atexit := atexit w;
     trace := trace w; forks := forks w; kill_errno := kill_errno w;
     open_errno := open_errno w; strerror := strerror w; nofile_hard := nofile_hard w;
     prog := prog w |}.

Definition with_cwd (d : string) (w : World) : World :=
  {| fs := fs w; fds := fds w; cwd := d; umask := umask w; getpid := getpid w;
     handlers := handlers w; logs := logs w; stderr := stderr w; atexit := atexit w;
     trace := trace w; forks := forks w; kill_errno := kill_errno w;
     open_errno := open_errno w; strerror := strerror w; nofile_hard := nofile_hard w;
     prog := prog w |}.

Definition with_umask (m : Z) (w : World) : World :=
  {| fs := fs w; fds := fds w; cwd := cwd w; umask := m; getpid := getpid w;
     handlers := handlers w; logs := logs w; stderr := stderr w; atexit := atexit w;
     trace := trace w; forks := forks w; kill_errno := kill_errno w;
     open_errno := open_errno w; strerror := strerror w; nofile_hard := nofile_hard w;
     prog := prog w |}.

Definition with_logs (f : list (level * string) → list (level * string)) (w : World) : World :=
  {| fs := fs w; fds := fds w; cwd := cwd w; umask := umask w; getpid := getpid w;
     handlers := handlers w; logs := f (logs w); stderr := stderr w; atexit := atexit w;
     trace := trace w; forks := forks w; kill_errno := kill_errno w;
     open_errno := open_errno w; strerror := strerror w; nofile_hard := nofile_hard w;
     prog := prog w |}.

Definition with_stderr (f : list string → list string) (w : World) : World :=
  {| fs := fs w; fds := fds w; cwd := cwd w; umask := umask w; getpid := getpid w;
     handlers := handlers w; logs := logs w; stderr := f (stderr w); atexit := atexit w;
     trace := trace w; forks := forks w; kill_errno := kill_errno w;
     open_errno := open_errno w; strerror := strerror w; nofile_hard := nofile_hard w;
     prog := prog w |}.

Definition with_atexit (f : list hook → list hook) (w : World) : World :=
  {| fs := fs w; fds := fds w; cwd := cwd w; umask := umask w; getpid := getpid w;
     handlers := handlers w; logs := logs w; stderr := stderr w; atexit := f (atexit w);
     trace := trace w; forks := forks w; kill_errno := kill_errno w;
     open_errno := open_errno w; strerror := strerror w; nofile_hard := nofile_hard w;
     prog := prog w |}.

Definition with_trace (f : list event → list event) (w : World) : World :=
  {| fs := fs w; fds := fds w; cwd := cwd w; umask := umask w; getpid := getpid w;
     handlers := handlers w; logs := logs w; stderr := stderr w; atexit := atexit w;
     trace := f (trace w); forks := forks w; kill_errno := kill_errno w;
     open_errno := open_errno w; strerror := strerror w; nofile_hard := nofile_hard w;
     prog := prog w |}.

(** The process after a fork: one answer of the oracle is used up, and the
    child has a process identifier of its own. *)
Definition after_fork (me : Z) (w : World) : World :=
  {| fs := fs w; fds := fds w; cwd := cwd w; umask := umask w; getpid := me;
     handlers := handlers w; logs := logs w; stderr := stderr w; atexit := atexit w;
     trace := trace w ++ [Fork]; forks := tail (forks w); kill_errno := kill_errno w;
     open_errno := open_errno w; strerror := strerror w; nofile_hard := nofile_hard w;
     prog := prog w |}.

(** A computation on an instance of type [O] in the process environment:
    it returns a value or raises, and leaves a state either way. *)
Inductive outcome (O A : Type) :=
| Ret (a : A) (o : O) (w : World)
| Raise (e : exn) (o : O) (w : World).
Arguments Ret {O A} a o w.
Arguments Raise {O A} e o w.

Definition M (O A : Type) : Type := O → World → outcome O A.

Definition ret {O A} (a : A) : M O A := λ o w, Ret a o w.

Definition bind {O A B} (m : M O A) (k : A → M O B) : M O B :=
  λ o w, match m o w with
         | Ret a o' w' => k a o' w'
         | Raise e o' w' => Raise e o' w'
         end.

Definition raise {O A} (e : exn) : M O A := λ o w, Raise e o w.

(** [try: m except ...: h]; [h e] is [None] for an exception that no
    clause of the statement names. *)
Definition try {O A} (m : M O A) (h : exn → option (M O A)) : M O A :=
  λ o w, match m o w with
         | Ret a o' w' => Ret a o' w'
         | Raise e o' w' =>
             match h e with
             | Some k => k o' w'
             | None => Raise e o' w'
             end
         end.

Definition get {O} : M O O := λ o w, Ret o o w.
Definition put {O} (o' : O) : M O unit := λ _ w, Ret tt o' w.
Definition env {O} : M O World := λ o w, Ret w o w.
Definition upd {O} (f : World → World) : M O unit := λ o w, Ret tt o (f w).

Declare Scope py_scope.
Delimit Scope py_scope with py.
Notation "x <- m ;; k" := (bind m (λ x, k))
  (at level 100, m at next level, right associativity) : py_scope.
Notation "m ;; k" := (bind m (λ _, k))
  (at level 100, right associativity) : py_scope.
Local Open Scope py_scope.

(** *** The logger, and the calls into the operating system *)

(** Modelled from the spec: the logger of the [logga] package, which is
    not part of the sources; the specification has it emit a log line
    with a level at every state transition and error.  [logged] is the
    environment with one more record, [traced] with one more call. *)
Definition logged (l : level) (msg : string) (w : World) : World :=
  with_logs (λ ls, ls ++ [(l, msg)]) w.

Definition traced (e : event) (w : World) : World :=
  with_trace (λ t, t ++ [e]) w.

Definition log {O} (l : level) (msg : string) : M O unit := upd (logged l msg).

Definition emit {O} (e : event) : M O unit := upd (traced e).

Definition str_oserror (w : World) (errno : Z) : string :=
  "[Errno " +:+ pretty errno +:+ "] " +:+ strerror w errno.

(** [str(error)] for the exceptions the code formats into a message. *)
Definition str_exn (w : World) (e : exn) : string :=
  match e with
  | DaemonError m => py.repr m
  | ValueError m | TypeError m => m
  | IOError n p => str_oserror w n +:+ ": " +:+ py.repr p
  | OSError n => str_oserror w n
  | SystemExit c => pretty c
  | Uncaught _ => EmptyString
  end.

(** The integers that fit a C [int]. *)
Definition c_int (n : Z) : bool := (-2147483648 <=? n) && (n <=? 2147483647).

(** [os.kill(pid, sig)].  The interpreter converts both arguments to a C
    [int] first: one that does not fit raises [OverflowError], which is
    no [OSError], and no call is made.  Otherwise the call is made and the
    environment answers it. *)
Definition os_kill {O} (pid sig : Z) : M O unit :=
  if c_int pid && c_int sig then
    emit (Kill pid sig) ;;
    w <- env ;;
    match kill_errno w pid sig with
    | None => ret tt
    | Some errno => raise (OSError errno)
    end
  else raise (Uncaught "OverflowError").

Definition time_sleep {O} (secs : Z) : M O unit := emit (Sleep secs).

Definition sys_exit {O A} (code : Z) : M O A := raise (SystemExit code).

(** [os.fork()]; an oracle that has run out answers [EAGAIN]. *)
Definition os_fork {O} : M O Z :=
  w <- env ;;
  match forks w with
  | InParent child :: _ => upd (after_fork (getpid w)) ;; ret child
  | InChild me :: _ => upd (after_fork me) ;; ret 0
  | ForkFails errno :: _ => upd (after_fork (getpid w)) ;; raise (OSError errno)
  | [] => upd (after_fork (getpid w)) ;; raise (OSError 11)
  end.

Definition os_close {O} (fd : Z) : M O unit :=
  w <- env ;;
  match fds w !! fd with
  | Some _ => upd (with_fds (delete fd))
  | None => raise (OSError EBADF)
  end.

(** The lowest descriptor that is not open, searched below [n] from [fd]. *)
Fixpoint lowest_free (t : gmap Z string) (n : nat) (fd : Z) : Z :=
  match n with
  | O => fd
  | S n' => match t !! fd with
            | None => fd
            | Some _ => lowest_free t n' (fd + 1)
            end
  end.

Definition os_open {O} (path : string) : M O Z :=
  w <- env ;;
  let fd := lowest_free (fds w) (size (fds w)) 0 in
  upd (with_fds (insert fd path)) ;; ret fd.

Definition os_dup2 {O} (a b : Z) : M O unit :=
  w <- env ;;
  match fds w !! a with
  | Some f => upd (with_fds (insert b f))
  | None => raise (OSError EBADF)
  end.

(** The file system is keyed by paths as they are written: it has no
    links, and a path is not resolved, so one file has one name.  This is
    [os.path.exists] for the paths that name a file in one way only, see
    [plain_path]; a path that ends in a slash or holds a [.] or [..]
    component may name a directory that exists under another key. *)
Definition os_path_exists (w : World) (p : string) : bool :=
  bool_decide (is_Some (fs w !! p)).

Definition os_path_isabs (p : string) : bool :=
  match p with
  | String c _ => (nat_of_ascii c =? 47)%nat
  | EmptyString => false
  end.

(** [file(p, 'r').read()] *)
Definition file_read {O} (p : string) : M O string :=
  w <- env ;;
  match fs w !! p with
  | Some (File c) => ret c
  | Some Dir => raise (IOError EISDIR p)
  | None => raise (IOError ENOENT p)
  end.

(** [file(p, 'w+').write(text)]: the file is made or cut to nothing, then
    written. *)
Definition file_write {O} (p text : string) : M O unit :=
  w <- env ;;
  match open_errno w p with
  | Some errno => raise (IOError errno p)
  | None =>
      match fs w !! p with
      | Some Dir => raise (IOError EISDIR p)
      | _ => upd (with_fs (insert p (File text)))
      end
  end.

Definition os_remove {O} (p : string) : M O unit :=
  w <- env ;;
  match fs w !! p with
  | Some (File _) => upd (with_fs (delete p))
  | Some Dir => raise (OSError EISDIR)
  | None => raise (OSError ENOENT)
  end.

(** [for x in l: body x] *)
Fixpoint for_each {O A} (l : list A) (body : A → M O unit) : M O unit :=
  match l with
  | [] => ret tt
  | x :: l' => body x ;; for_each l' body
  end.

(** [range(0, n)] *)
Definition range (n : Z) : list Z := Z.of_nat <$> seq 0 (Z.to_nat n).

Definition quoted (s : string) : string := py.dq +:+ s +:+ py.dq.

(** *** [os.path] and the helpers of the [filer] package *)

Definition is_slash (c : ascii) : bool := (nat_of_ascii c =? 47)%nat.

Fixpoint has_slash (s : string) : bool :=
  match s with
  | EmptyString => false
  | String c s' => is_slash c || has_slash s'
  end.

(** [p[:p.rfind('/') + 1]] *)
Fixpoint upto_last_slash (s : string) : string :=
  match s with
  | EmptyString => EmptyString
  | String c s' => if has_slash s then String c (upto_last_slash s') else EmptyString
  end.

Fixpoint all_slashes (s : string) : bool :=
  match s with
  | EmptyString => true
  | String c s' => is_slash c && all_slashes s'
  end.

Fixpoint rstrip_slashes (s : string) : string :=
  match s with
  | EmptyString => EmptyString
  | String c s' =>
      match rstrip_slashes s' with
      | EmptyString => if is_slash c then EmptyString else String c EmptyString
      | r => String c r
      end
  end.

Definition os_path_dirname (p : string) : string :=
  let head := upto_last_slash p in
  if nonempty head && negb (all_slashes head) then rstrip_slashes head else head.


(** A name that stands for one entry of a directory: not empty, not [.]
    and not [..]. *)
Definition proper_name (x : string) : bool :=
  nonempty x && negb (String.eqb x ".") && negb (String.eqb x "..").

(** The path from [s] on is a run of proper names with one slash between
    two of them; [cur] is the name read so far. *)
Fixpoint proper_names (cur s : string) : bool :=
  match s with
  | EmptyString => proper_name cur
  | String c s' =>
      if is_slash c then proper_name cur && proper_names EmptyString s'
      else proper_names (cur +:+ String c EmptyString) s'
  end.

(** A path that names its file in one way: proper names with single
    slashes between them, after one slash if the path is absolute.  No
    component is resolved, so with no links in the way, two plain paths
    name the same file only if they are the same text. *)
Definition plain_path (p : string) : bool :=
  match p with
  | EmptyString => false
  | String c s' => if is_slash c then proper_names EmptyString s' else proper_names EmptyString p
  end.

(** [os.path.join(os.sep, p)] for a relative [p] *)
Definition os_path_join_sep (p : string) : string := "/" +:+ p.

(** Modelled from the spec: [create_dir] of the [filer] package, which is
    not part of the sources; given a path, it ensures that the directory
    exists.  Directories are kept here by their full path; the empty name
    makes nothing. *)
Definition create_dir {O} (d : string) : M O unit :=
  w <- env ;;
  if nonempty d && negb (os_path_exists w d)
  then upd (with_fs (insert d Dir))
  else ret tt.

(** Modelled from the spec: [remove_files] of the [filer] package, which
    is not part of the sources; given a path, it deletes it. *)
Definition removed (p : string) (w : World) : World := with_fs (delete p) w.

Definition remove_files {O} (p : string) : M O unit := upd (removed p).

(** ** [daemoniser.daemon] *)

Module daemon.

Definition MAXFD : Z := 1024.
Definition RLIM_INFINITY : Z := -1.

Record Daemon := {
  pidfile : option string;
  inline : bool;
  term_parent : bool;
  exit_event : bool;
  pid : option Z;
  pidfs : option Z
}.

Definition set_pidfile (v : option string) (d : Daemon) : Daemon :=
  {| pidfile := v; inline := inline d; term_parent := term_parent d;
     exit_event := exit_event d; pid := pid d; pidfs := pidfs d |}.

Definition set_inline (v : bool) (d : Daemon) : Daemon :=
  {| pidfile := pidfile d; inline := v; term_parent := term_parent d;
     exit_event := exit_event d; pid := pid d; pidfs := pidfs d |}.

Definition set_pid (v : option Z) (d : Daemon) : Daemon :=
  {| pidfile := pidfile d; inline := inline d; term_parent := term_parent d;
     exit_event := exit_event d; pid := v; pidfs := pidfs d |}.

(** The class attributes, before [__init__] has run. *)
Definition blank : Daemon :=
  {| pidfile := None; inline := false; term_parent := true;
     exit_event := false; pid := None; pidfs := None |}.

(** A class that generalises [Daemon]: its name and its [_start], the
    service body, which is handed the exit event and may do anything to
    the instance and to the environment, or raise. *)
Class Subclass := {
  __name__ : string;
  _start : bool → M Daemon unit
}.

(** [Daemon] itself: its [_start] takes no event, so the call that [start]
    makes fails on the argument count. *)
Definition Base : Subclass :=
  {| __name__ := "Daemon";
     _start := λ _, raise (TypeError "_start() takes exactly 1 argument (2 given)") |}.

Section Methods.
Context `{C : Subclass}.

Definition set_exit_event : M Daemon unit :=
  λ d, ret tt {| pidfile := pidfile d; inline := inline d; term_parent := term_parent d;
                 exit_event := true; pid := pid d; pidfs := pidfs d |}.

Definition _exit_handler : M Daemon unit :=
  log INFO (__name__ +:+ " -- SIGTERM intercepted") ;;
  set_exit_event.

Definition _validate : M Daemon unit :=
  d <- get ;;
  match pidfile d with
  | None => raise (Uncaught "AttributeError")
  | Some p0 =>
      (if os_path_isabs p0 then ret tt
       else
         log DEBUG ("PID file " +:+ quoted p0 +:+ " is relative -- make absolute") ;;
         put (set_pidfile (Some (os_path_join_sep p0)) d) ;;
         log DEBUG ("PID file now " +:+ quoted (os_path_join_sep p0))) ;;
      d <- get ;;
      let p := default p0 (pidfile d) in
      w <- env ;;
      if os_path_exists w p then
        log DEBUG ("PID file " +:+ quoted p +:+ " exists") ;;
        try
          (text <- file_read p ;;
           match py.int (py.strip text) with
           | None => raise (ValueError (py.int_error (py.strip text)))
           | Some n =>
               d <- get ;;
               put (set_pid (Some n) d) ;;
               log DEBUG ("Stored PID is: " +:+ pretty n)
           end)
          (λ e, match e with
                | ValueError m =>
                    Some (raise (DaemonError ("Error reading PID file: " +:+ m)))
                | _ => None
                end)
      else ret tt
  end.

Definition __init__ (pidfile_arg : option string) (term_parent_arg : bool) : M Daemon unit :=
  d <- get ;;
  put (set_pidfile pidfile_arg d) ;;
  match pidfile_arg with
  | Some p => create_dir (os_path_dirname p)
  | None => ret tt
  end ;;
  d <- get ;;
  put {| pidfile := pidfile d; inline := inline d; term_parent := term_parent_arg;
         exit_event := false; pid := None; pidfs := None |} ;;
  match pidfile_arg with
  | Some _ => _validate
  | None => ret tt
  end.

(** One of the two forks of [daemonize], with its [try] statement; [true]
    when the process followed is the child and goes on, [false] when it is
    the parent and [daemonize] returns at once. *)
Definition fork_step (label : string) : M Daemon bool :=
  try
    (child <- os_fork ;;
     if 0 <? child then
       d <- get ;;
       if term_parent d then sys_exit 0 else ret false
     else ret true)
    (λ e, match e with
          | OSError errno =>
              Some (w <- env ;;
                    upd (with_stderr (λ out, out ++
                      [label +:+ " failed: " +:+ pretty errno +:+ " ("
                       +:+ strerror w errno +:+ ")" +:+ py.nl])) ;;
                    sys_exit 1)
          | _ => None
          end).

(** The descriptor a handler contributes to [filenos], if any. *)
Definition fileno_above_2 (h : handler) : option Z :=
  match stream h with
  | Some (Some fd) => if 2 <? fd then Some fd else None
  | _ => None
  end.

(** The body of [for fd in range(0, maxfd)], with its [try] statement. *)
Definition close_unless (filenos : list Z) (fd : Z) : M Daemon unit :=
  try
    (if bool_decide (fd ∈ filenos) then ret tt else os_close fd)
    (λ e, match e with
          | OSError _ => Some (ret tt)
          | _ => None
          end).

(** [for handler in log.handlers], as the source indents it: the loop over
    the descriptors is inside the loop over the handlers. *)
Fixpoint close_descriptors (hs : list handler) (filenos : list Z) (maxfd : Z)
  : M Daemon (list Z) :=
  match hs with
  | [] => ret filenos
  | h :: hs' =>
      let filenos' := match fileno_above_2 h with
                      | Some fd => filenos ++ [fd]
                      | None => filenos
                      end in
      for_each (range maxfd) (close_unless filenos') ;;
      close_descriptors hs' filenos' maxfd
  end.

Definition daemonize : M Daemon unit :=
  log DEBUG "Attempting first fork ..." ;;
  go <- fork_step "Fork #1" ;;
  if negb go then ret tt else
  upd (with_cwd "/") ;;
  emit Setsid ;;
  upd (with_umask 0) ;;
  go <- fork_step "fork #2" ;;
  if negb go then ret tt else
  w <- env ;;
  let maxfd := if nofile_hard w =? RLIM_INFINITY then MAXFD else nofile_hard w in
  close_descriptors (handlers w) [] maxfd ;;
  os_open "/dev/null" ;;
  os_dup2 0 1 ;;
  os_dup2 0 2 ;;
  w <- env ;;
  let child_pid := pretty (getpid w) in
  log DEBUG ("PID of child process: " +:+ child_pid) ;;
  d <- get ;;
  match pidfile d with
  | Some p => file_write p (child_pid +:+ py.nl)
  | None => raise (TypeError "coercing to Unicode: need string or buffer, NoneType found")
  end ;;
  upd (with_atexit (λ hs, hs ++ [Delpid])).

Definition _start_daemon : M Daemon bool :=
  d <- get ;;
  match pidfile d with
  | None => raise (DaemonError "PID file has not been defined")
  | Some p =>
      log DEBUG ("checking daemon status with PID: " +:+ py.str_opt (pid d)) ;;
      match pid d with
      | Some _ =>
          log WARNING ("PID file " +:+ quoted p +:+ " exists.  Daemon may be running?"
                       +:+ py.nl) ;;
          ret false
      | None =>
          log DEBUG "No PID file -- creating handle" ;;
          try
            (log DEBUG "starting daemon" ;;
             daemonize ;;
             d <- get ;;
             _start (exit_event d) ;;
             ret true)
            (λ e, match e with
                  | IOError _ _ =>
                      Some (w <- env ;;
                            raise (DaemonError ("Cannot write to PID file: IOError "
                                                +:+ quoted (str_exn w e))))
                  | _ => None
                  end)
      end
  end.

Definition start : M Daemon bool :=
  d <- get ;;
  if inline d then
    _start (exit_event d) ;;
    ret true
  else
    _start_daemon.

Definition stop : M Daemon bool :=
  d <- get ;;
  if py.truthy (pid d) then
    log DEBUG ("Stopping daemon process with PID: " +:+ py.str_opt (pid d)) ;;
    try
      (os_kill (default 0 (pid d)) SIGTERM ;;
       d <- get ;;
       put (set_pid None d) ;;
       ret true)
      (λ e, match e with
            | OSError errno =>
                Some (w <- env ;;
                      log ERROR ("PID " +:+ quoted (py.str_opt (pid d)) +:+ " stop: "
                                 +:+ quoted (str_exn w e)) ;;
                      (if errno =? 3 then
                         match pidfile d with
                         | Some p =>
                             log WARNING ("Removing PID file " +:+ quoted p) ;;
                             remove_files p
                         | None => ret tt
                         end
                       else ret tt) ;;
                      ret false)
            | _ => None
            end)
  else
    match pid d with
    | None =>
        log WARNING "Stopping process but unable to find PID" ;;
        ret false
    | Some n =>
        log WARNING ("PID file exists with invalid value: " +:+ quoted (pretty n)) ;;
        ret false
    end.

Definition restart : M Daemon unit :=
  let log_msg := __name__ +:+ " daemon --" in
  log INFO (log_msg +:+ " attempting restart ...") ;;
  log INFO (log_msg +:+ " stopping ...") ;;
  stop ;;
  time_sleep 2 ;;
  log INFO (log_msg +:+ " attempting restart ...") ;;
  start ;;
  ret tt.

Definition _delpid : M Daemon unit :=
  d <- get ;;
  log DEBUG ("Removing PID file at " +:+ quoted (default EmptyString (pidfile d))) ;;
  match pidfile d with
  | Some p => os_remove p
  | None => raise (TypeError "coercing to Unicode: need string or buffer, NoneType found")
  end.

Definition status : M Daemon bool :=
  d <- get ;;
  match pid d with
  | Some n =>
      try
        (os_kill n 0 ;; ret true)
        (λ e, match e with
              | OSError _ => Some (ret false)
              | _ => None
              end)
  | None => ret false
  end.

End Methods.

End daemon.

(** ** [daemoniser.service] *)

Module service.

(** What [optparse] hands back for the options that [Service.__init__]
    declares: [-v] counts, [-d] and [-b] store [True] and are [None] when
    absent, [-c] takes a path. *)
Record Options := {
  verbose : Z;
  dry : option bool;
  batch : option bool;
  config : option string
}.

Record Service := {
  _config : option string;
  _options : option Options;
  _args : list string;
  _dry : bool;
  _command : option string;
  _batch : bool;
  _pidfile : option string;
  _script_name : option string;
  _supported_commands : list string
}.

(** The class attributes. *)
Definition blank : Service :=
  {| _config := None; _options := None; _args := []; _dry := false; _command := None;
     _batch := false; _pidfile := None; _script_name := None;
     _supported_commands := ["start"; "stop"; "status"] |}.

(** The parser's usage line, ['usage: %prog [options] start|stop|status'],
    as [optparse] prints it for the running program. *)
Definition get_usage (w : World) : string :=
  "Usage: " +:+ prog w +:+ " [options] start|stop|status" +:+ py.nl.

(** [OptionParser.error]: the usage and the message go to the standard
    error stream and the process exits with status 2. *)
Definition parser_error {A} (msg : string) : M Service A :=
  w <- env ;;
  upd (with_stderr (λ out, out ++ [get_usage w +:+ py.nl;
                                  prog w +:+ ": error: " +:+ msg +:+ py.nl])) ;;
  sys_exit 2.

(** Modelled from the spec: [set_console] and [set_log_level] of the
    [geosutils] package, which is not part of the sources; they configure
    the logger, and are kept as calls in the trace. *)
Definition set_console : M Service unit := emit SetConsole.
Definition set_log_level (name : string) : M Service unit := emit (SetLogLevel name).

(** The part of [check_args] under [if command is None]; it gives the
    command and what is left of [args] after [args.pop(0)]. *)
Definition command_from_args (options : Options) (args : list string)
  : M Service (string * list string) :=
  match args with
  | [cmd] =>
      s <- get ;;
      (if bool_decide (cmd ∈ _supported_commands s) then ret tt
       else parser_error ("command " +:+ quoted cmd +:+ " not supported")) ;;
      (if negb (String.eqb cmd "start") && (py.flag (dry options) || py.flag (batch options))
       then parser_error ("invalid option(s) with command " +:+ quoted cmd)
       else ret tt) ;;
      ret (cmd, [])
  | _ => parser_error "incorrect number of arguments"
  end.

(** [check_args], from the point where [parse_args] has returned
    [(options, args)]. *)
Definition check_args (options : Options) (args : list string)
    (script_name : string) (command : option string) : M Service unit :=
  (if bool_decide (dry options ≠ None) then set_console else ret tt) ;;
  r <- match command with
       | None => command_from_args options args
       | Some c => ret (c, args)
       end ;;
  let cmd := r.1 in
  let args := r.2 in
  (if String.eqb cmd "status" then set_console else ret tt) ;;
  (if verbose options =? 0 then set_log_level "INFO"
   else log DEBUG ("Logging verbosity set to " +:+ quoted "DEBUG" +:+ " level")) ;;
  s <- get ;;
  put {| _config := _config s; _options := Some options; _args := args; _dry := _dry s;
         _command := Some cmd; _batch := _batch s; _pidfile := _pidfile s;
         _script_name := Some script_name;
         _supported_commands := _supported_commands s |} ;;
  if String.eqb cmd "start" then
    s <- get ;;
    put {| _config := _config s; _options := _options s; _args := _args s;
           _dry := bool_decide (dry options ≠ None); _command := _command s;
           _batch := bool_decide (batch options ≠ None); _pidfile := _pidfile s;
           _script_name := _script_name s;
           _supported_commands := _supported_commands s |}
  else ret tt.

End service.

(** ** A subclass and an environment to run the code on *)

Module example.

(** The class of the [Daemon] docstring: a body that returns once the exit
    event is set. *)
Definition DummyDaemon : daemon.Subclass :=
  {| daemon.__name__ := "DummyDaemon";
     daemon._start := λ event,
       log INFO "DummyDaemon serving" ;;
       if event then ret tt else daemon.set_exit_event |}.

Definition svc_pid : string := "/tmp/svc.pid".

(** A terminal on the three standard streams and one more open file; no
    process 4242; the two forks give the detached child. *)
Definition world (files : gmap string node) (hs : list handler) : World :=
  {| fs := files;
     fds := <[0 := "/dev/tty"]> (<[1 := "/dev/tty"]> (<[2 := "/dev/tty"]>
            (<[3 := "/var/lib/svc/data"]> (<[5 := "/var/log/svc.log"]>
            (<[7 := "/var/log/audit.log"]> ∅)))));
     cwd := "/home/svc";
     umask := 18;
     getpid := 900;
     handlers := hs;
     logs := [];
     stderr := [];
     atexit := [];
     trace := [];
     forks := [InChild 901; InChild 902];
     kill_errno := λ pid _, if pid =? 4242 then Some ESRCH else
                            if pid =? 1 then Some 1 else None;
     open_errno := λ _, None;
     strerror := λ n, if n =? 3 then "No such process" else "Operation not permitted";
     nofile_hard := 64;
     prog := "svc" |}.

Definition idle : daemon.Daemon :=
  {| daemon.pidfile := Some svc_pid; daemon.inline := false; daemon.term_parent := true;
     daemon.exit_event := false; daemon.pid := None; daemon.pidfs := None |}.

Definition stale : daemon.Daemon := daemon.set_pid (Some 4242) idle.

(** The environment with the stale PID file of process 4242 in it. *)
Definition stale_world : World := world {[svc_pid := File ("4242" +:+ py.nl)]} [].

End example.

(** ** Vocabulary of the statements *)

(** The path [_validate] settles on. *)
Definition absolute (p : string) : string :=
  if os_path_isabs p then p else os_path_join_sep p.

(** The environment after a [stop] whose signal to [n] was refused with
    [errno]. *)
Definition stop_failed (d : daemon.Daemon) (n errno : Z) (w : World) : World :=
  let w1 := logged ERROR ("PID " +:+ quoted (pretty n) +:+ " stop: "
                          +:+ quoted (str_oserror w errno))
              (traced (Kill n SIGTERM)
                 (logged DEBUG ("Stopping daemon process with PID: " +:+ pretty n) w)) in
  if errno =? 3 then
    match daemon.pidfile d with
    | Some p => removed p (logged WARNING ("Removing PID file " +:+ quoted p) w1)
    | None => w1
    end
  else w1.


(** The environment after [parser.error msg]. *)
Definition usage_error (msg : string) (w : World) : World :=
  with_stderr (λ out, out ++ [service.get_usage w +:+ py.nl;
                              prog w +:+ ": error: " +:+ msg +:+ py.nl]) w.

(** The options of a command line with [-d] alone. *)
Definition dry_run : service.Options :=
  {| service.verbose := 0; service.dry := Some true; service.batch := None;
     service.config := None |}.

(** The environment of the detached child when it reaches the write of the
    PID file: two forks, the session, the root directory, mask 0, the
    descriptors cleaned up and the standard streams redirected. *)
Definition detached (b : Z) (rest : list forked) (t : gmap Z string) (w : World) : World :=
  {| fs := fs w; fds := t; cwd := "/"; umask := 0; getpid := b;
     handlers := handlers w;
     logs := logs w ++ [(DEBUG, "Attempting first fork ...");
                        (DEBUG, "PID of child process: " +:+ pretty b)];
     stderr := stderr w; atexit := atexit w;
     trace := trace w ++ [Fork; Setsid; Fork]; forks := rest;
     kill_errno := kill_errno w; open_errno := open_errno w; strerror := strerror w;
     nofile_hard := nofile_hard w; prog := prog w |}.

(** The environment with other answers of the operating system, and the
    instance with the other choice for the parent. *)
Definition with_forks (answers : list forked) (w : World) : World :=
  {| fs := fs w; fds := fds w; cwd := cwd w; umask := umask w; getpid := getpid w;
     handlers := handlers w; logs := logs w; stderr := stderr w; atexit := atexit w;
     trace := trace w; forks := answers; kill_errno := kill_errno w;
     open_errno := open_errno w; strerror := strerror w; nofile_hard := nofile_hard w;
     prog := prog w |}.

Definition with_open_errno (answer : string → option Z) (w : World) : World :=
  {| fs := fs w; fds := fds w; cwd := cwd w; umask := umask w; getpid := getpid w;
     handlers := handlers w; logs := logs w; stderr := stderr w; atexit := atexit w;
     trace := trace w; forks := forks w; kill_errno := kill_errno w;
     open_errno := answer; strerror := strerror w; nofile_hard := nofile_hard w;
     prog := prog w |}.

Definition set_term_parent (v : bool) (d : daemon.Daemon) : daemon.Daemon :=
  {| daemon.pidfile := daemon.pidfile d; daemon.inline := daemon.inline d;
     daemon.term_parent := v; daemon.exit_event := daemon.exit_event d;
     daemon.pid := daemon.pid d; daemon.pidfs := daemon.pidfs d |}.

(** ** [daemoniser.service]: the PID file property and [launch_command] *)

Module controller.
Import service.

Fixpoint ends_with_slash (s : string) : bool :=
  match s with
  | EmptyString => false
  | String c EmptyString => is_slash c
  | String _ s' => ends_with_slash s'
  end.

(** [os.path.join(path, *ps)]: a component that starts with a slash
    starts the path over. *)
Fixpoint os_path_join (path : string) (ps : list string) : string :=
  match ps with
  | [] => path
  | b :: ps' =>
      os_path_join
        (if os_path_isabs b then b
         else if negb (nonempty path) || ends_with_slash path then path +:+ b
         else path +:+ "/" +:+ b)
        ps'
  end.

Definition set_script_name (v : option string) (s : Service) : Service :=
  {| _config := _config s; _options := _options s; _args := _args s; _dry := _dry s;
     _command := _command s; _batch := _batch s; _pidfile := _pidfile s;
     _script_name := v; _supported_commands := _supported_commands s |}.

Definition set_pidfile (v : option string) (s : Service) : Service :=
  {| _config := _config s; _options := _options s; _args := _args s; _dry := _dry s;
     _command := _command s; _batch := _batch s; _pidfile := v;
     _script_name := _script_name s; _supported_commands := _supported_commands s |}.

(** The [pidfile] property; [home] is what [os.path.expanduser('~')]
    gives. *)
Definition pidfile (home : string) : M Service (option string) :=
  s <- get ;;
  (match _pidfile s, _script_name s with
   | None, Some name =>
       put (set_pidfile (Some (os_path_join home [".pids"; name +:+ ".pid"])) s)
   | _, _ => ret tt
   end) ;;
  s <- get ;;
  ret (_pidfile s).

(** What [launch_command] works on: the daemon object it is given, and the
    lines it prints. *)
Record Console := { obj : daemon.Daemon; stdout : list string }.

Definition on_obj {A} (m : M daemon.Daemon A) : M Console A :=
  λ c w, match m (obj c) w with
         | Ret a d w' => Ret a {| obj := d; stdout := stdout c |} w'
         | Raise e d w' => Raise e {| obj := d; stdout := stdout c |} w'
         end.

Definition print (line : string) : M Console unit :=
  λ c w, Ret tt {| obj := obj c; stdout := stdout c ++ [line] |} w.

Section Launch.
Context `{C : daemon.Subclass}.

Definition launch_command (s : Service) (script_name : string) (inline : bool)
  : M Console unit :=
  if bool_decide (_command s = Some "start") then
    let msg := "Starting " +:+ script_name in
    msg <- (if _dry s || inline then
              c <- get ;;
              put {| obj := daemon.set_inline true (obj c); stdout := stdout c |} ;;
              ret (msg +:+ " inline")
            else ret (msg +:+ " as daemon")) ;;
    let msg := if _batch s then msg +:+ " (batch mode)" else msg in
    print (msg +:+ " ...") ;;
    started <- on_obj daemon.start ;;
    if negb started then print "Start aborted" else ret tt
  else if bool_decide (_command s = Some "stop") then
    print ("Stopping " +:+ script_name +:+ " ...") ;;
    stopped <- on_obj daemon.stop ;;
    if stopped then print "OK" else print "Stop aborted"
  else if bool_decide (_command s = Some "status") then
    alive <- on_obj daemon.status ;;
    if alive then
      c <- get ;;
      match daemon.pid (obj c) with
      | Some n => print (script_name +:+ " is running with PID " +:+ pretty n)
      | None => raise (TypeError "%d format: a number is required, not NoneType")
      end
    else print (script_name +:+ " is idle")
  else
    print ("Do not know command "
           +:+ quoted (match _command s with Some c => c | None => "None" end)).

End Launch.

End controller.

(** A controller with its command set, as [check_args] leaves it. *)
Definition example_commanded (cmd : option string) : service.Service :=
  {| service._config := None; service._options := None; service._args := [];
     service._dry := false; service._command := cmd; service._batch := false;
     service._pidfile := None; service._script_name := Some "svc";
     service._supported_commands := ["start"; "stop"; "status"] |}.

(** * Properties *)

(** ** Running the monad in proofs *)

Ltac run :=
  repeat (progress (unfold bind, ret, get, put, env, upd, log, emit, raise, try, sys_exit;
                    cbn -[py.int py.int_error py.strip py.repr String.append pretty c_int])).

(** The signal numbers of the code fit a C [int]. *)
Ltac signal_fits :=
  try change (c_int SIGTERM) with true; try change (c_int 0) with true.

(** ** Strings *)

Section Strings.

Lemma lstrip_idem s : py.lstrip (py.lstrip s) = py.lstrip s.
Proof.
  induction s as [|c s IH]; simpl; [reflexivity|].
  destruct (py.isspace c) eqn:E; [exact IH|]. simpl. now rewrite E.
Qed.

Lemma rstrip_cons c s :
  py.rstrip (String c s) =
  match py.rstrip s with
  | EmptyString => if py.isspace c then EmptyString else String c EmptyString
  | r => String c r
  end.
Proof. reflexivity. Qed.

Lemma rstrip_idem s : py.rstrip (py.rstrip s) = py.rstrip s.
Proof.
  induction s as [|c s IH]; simpl; [reflexivity|].
  destruct (py.rstrip s) as [|c' r] eqn:E.
  - destruct (py.isspace c) eqn:Ec; simpl; [reflexivity|]. now rewrite Ec.
  - rewrite rstrip_cons, IH. reflexivity.
Qed.

(** Stripping on the right keeps the first character of a string that
    starts with no white space. *)
Lemma rstrip_head c s :
  py.isspace c = false → ∃ r, py.rstrip (String c s) = String c r.
Proof.
  intros Hc. simpl. destruct (py.rstrip s); [rewrite Hc|]; eauto.
Qed.

Lemma rstrip_lstrip s : py.rstrip (py.lstrip s) = py.lstrip (py.rstrip s).
Proof.
  induction s as [|c s IH]; [reflexivity|].
  cbn [py.lstrip]. destruct (py.isspace c) eqn:Ec.
  - rewrite IH. cbn [py.rstrip]. destruct (py.rstrip s) as [|c' r] eqn:E.
    + now rewrite Ec.
    + cbn [py.lstrip]. now rewrite Ec.
  - destruct (rstrip_head c s Ec) as [r Hr]. rewrite Hr. simpl. now rewrite Ec.
Qed.

Lemma strip_idem s : py.strip (py.strip s) = py.strip s.
Proof.
  unfold py.strip. rewrite rstrip_lstrip, rstrip_idem, lstrip_idem. reflexivity.
Qed.

Lemma digits_all_digits s acc : all_digits s = false → py.digits acc s = None.
Proof.
  revert acc. induction s as [|c s IH]; intros acc; simpl; [discriminate|].
  destruct (py.digit c) as [d|] eqn:E; [|reflexivity].
  rewrite bool_decide_eq_true_2 by eauto. simpl. apply IH.
Qed.

Lemma all_digits_digits s acc : all_digits s = true → is_Some (py.digits acc s).
Proof.
  revert acc. induction s as [|c s IH]; intros acc; simpl; [eauto|].
  destruct (py.digit c) as [d|] eqn:E.
  - rewrite bool_decide_eq_true_2 by eauto. simpl. apply IH.
  - rewrite bool_decide_eq_false_2; [discriminate|]. intros [? ?]; discriminate.
Qed.

Lemma unsigned_none s : nonempty s && all_digits s = false → py.unsigned s = None.
Proof.
  destruct s as [|c s]; [reflexivity|]. cbn [nonempty andb py.unsigned].
  apply digits_all_digits.
Qed.

Lemma unsigned_some s : nonempty s && all_digits s = true → is_Some (py.unsigned s).
Proof.
  destruct s as [|c s]; [discriminate|]. cbn [nonempty andb py.unsigned].
  apply all_digits_digits.
Qed.

(** A sign is no digit. *)
Lemma sign_not_digit c : py.is_plus c || py.is_minus c = true → py.digit c = None.
Proof.
  unfold py.is_plus, py.is_minus, py.digit. intros Hs.
  destruct (Nat.leb 48 _ && Nat.leb _ 57) eqn:E; [|reflexivity].
  apply andb_true_iff in E as [E1 E2].
  apply Nat.leb_le in E1. apply orb_true_iff in Hs as [Hs|Hs]; apply Nat.eqb_eq in Hs; lia.
Qed.

Lemma digit_not_space c : is_Some (py.digit c) → py.isspace c = false.
Proof.
  unfold py.digit, py.isspace. intros [z Hz].
  destruct (Nat.leb 48 _ && Nat.leb _ 57) eqn:E; [|discriminate].
  apply andb_true_iff in E as [E1 E2]. apply Nat.leb_le in E1.
  apply orb_false_iff. split.
  - apply Nat.eqb_neq. lia.
  - apply andb_false_iff. right. apply Nat.leb_gt. lia.
Qed.

Lemma lstrip_digits s : all_digits s = true → py.lstrip s = s.
Proof.
  destruct s as [|c s]; [reflexivity|]. cbn [all_digits py.lstrip]. intros Hd.
  apply andb_true_iff in Hd as [Hc _]. apply bool_decide_eq_true in Hc.
  now rewrite digit_not_space.
Qed.

(** [py.signed] parses exactly a sign, white space and digits. *)
Lemma signed_none s : sign_blanks_digits s = false → py.signed s = None.
Proof.
  destruct s as [|c s]; [reflexivity|]. cbn [sign_blanks_digits py.signed].
  destruct (py.is_plus c) eqn:Ep; cbn [orb].
  - apply unsigned_none.
  - destruct (py.is_minus c) eqn:Em.
    + intros Hd. now rewrite (unsigned_none _ Hd).
    + intros Hd. now apply (unsigned_none (String c s)).
Qed.

Lemma signed_some s : sign_blanks_digits s = true → is_Some (py.signed s).
Proof.
  destruct s as [|c s]; [discriminate|]. cbn [sign_blanks_digits py.signed].
  destruct (py.is_plus c) eqn:Ep; cbn [orb].
  - apply unsigned_some.
  - destruct (py.is_minus c) eqn:Em.
    + intros Hd. destruct (unsigned_some _ Hd) as [n ->]. simpl. eauto.
    + intros Hd. now apply (unsigned_some (String c s)).
Qed.

(** The decimal integers of the specification are among them. *)
Lemma decimal_sign_blanks_digits s :
  decimal_integer s = true → sign_blanks_digits s = true.
Proof.
  destruct s as [|c s]; [discriminate|]. cbn [decimal_integer sign_blanks_digits].
  destruct (py.is_plus c || py.is_minus c); [|auto].
  intros Hd. apply andb_true_iff in Hd as [Hn Hd]. now rewrite (lstrip_digits _ Hd), Hn, Hd.
Qed.

(** [int] applied to a stripped text fails exactly when the text is not
    of that form. *)
Lemma int_strip_none text :
  py.int (py.strip text) = None ↔ sign_blanks_digits (py.strip text) = false.
Proof.
  unfold py.int. rewrite strip_idem. split.
  - intros Hn. destruct (sign_blanks_digits (py.strip text)) eqn:E; [|reflexivity].
    destruct (signed_some _ E) as [n Hs]. congruence.
  - apply signed_none.
Qed.

Lemma int_strip_decimal text :
  decimal_integer (py.strip text) = true → is_Some (py.int (py.strip text)).
Proof.
  intros Hd. unfold py.int. rewrite strip_idem.
  now apply signed_some, decimal_sign_blanks_digits.
Qed.

Example int_of_pid_file : py.int (py.strip ("4242" +:+ py.nl)) = Some 4242.
Proof. reflexivity. Qed.

Example int_signed : py.int "  -17 " = Some (-17).
Proof. reflexivity. Qed.

Example int_trailing_letter : py.int "12a" = None.
Proof. reflexivity. Qed.

Example int_blank : py.int "   " = None.
Proof. reflexivity. Qed.

(** White space between the sign and the digits is skipped, white space
    between two digits is not. *)
Example int_blank_after_sign : py.int "- 12" = Some (-12).
Proof. reflexivity. Qed.

Example int_blank_in_digits : py.int "1 2" = None.
Proof. reflexivity. Qed.

Example int_above_c_int : py.int "2147483648" = Some 2147483648.
Proof. reflexivity. Qed.

Example int_error_literal :
  py.int_error "12a" = "invalid literal for int() with base 10: '12a'".
Proof. reflexivity. Qed.

(** The message for a text with a NUL byte in it: the part before the byte
    decides which one it is. *)
Example int_error_nul :
  py.int (String "1" (String "2" (String (ascii_of_nat 0) "3"))) = None
  ∧ py.int_error (String "1" (String "2" (String (ascii_of_nat 0) "3")))
    = "null byte in argument for int()"
  ∧ py.int_error (String "a" (String (ascii_of_nat 0) "3"))
    = "invalid literal for int() with base 10: 'a'".
Proof. repeat split; reflexivity. Qed.

End Strings.

(** ** Construction *)

Section Construction.
Import daemon.

Lemma create_dir_keeps_file (dir q : string) (c : string) (d : Daemon) (w : World) :
  fs w !! q = Some (File c) →
  ∃ w', create_dir dir d w = Ret tt d w' ∧ fs w' !! q = Some (File c).
Proof.
  intros Hq. unfold create_dir. run.
  destruct (nonempty dir && negb (os_path_exists w dir)) eqn:E.
  - eexists; split; [reflexivity|]. simpl.
    rewrite lookup_insert_ne; [exact Hq|].
    intros ->. apply andb_true_iff in E as [_ E]. apply negb_true_iff in E.
    unfold os_path_exists in E. apply bool_decide_eq_false in E. apply E. eauto.
  - eauto.
Qed.

(** C2.  For every content of an existing PID file whose stripped text
    is not an optional sign, optional white space and then decimal digits,
    at least one, constructing a [Daemon] on that file raises
    [DaemonError] with the message of [int]'s [ValueError] in it: the
    construction does not return, so the file is never read as the
    absence of a daemon.  The cached PID is still unset and the file is
    left as it was. *)
Theorem init_rejects_bad_pid_file (p content : string) (tp : bool) (w : World) :
  fs w !! absolute p = Some (File content) →
  sign_blanks_digits (py.strip content) = false →
  ∃ d' w',
    __init__ (Some p) tp blank w =
      Raise (DaemonError ("Error reading PID file: " +:+ py.int_error (py.strip content)))
            d' w'
    ∧ pid d' = None ∧ fs w' !! absolute p = Some (File content).
Proof.
  intros Hfile Hbad. apply int_strip_none in Hbad.
  unfold __init__. unfold bind at 1 2 3. unfold get at 1, put at 1.
  destruct (create_dir_keeps_file (os_path_dirname p) (absolute p) content
              (set_pidfile (Some p) blank) w Hfile) as (w1 & Hc & Hf1).
  rewrite Hc. unfold _validate, absolute, file_read, os_path_exists in *. run.
  destruct (os_path_isabs p) eqn:Eabs; run.
  all: rewrite bool_decide_eq_true_2 by (cbn; rewrite Hf1; eauto).
  all: run; rewrite Hf1; run; rewrite Hbad; run; cbn -[py.strip py.repr py.int_error]; eauto.
Qed.

Lemma init_rejects_bad_pid_file_witness :
  ∃ d' w',
    __init__ (Some example.svc_pid) true blank
      (example.world {[example.svc_pid := File ("12a" +:+ py.nl)]} []) =
      Raise (DaemonError ("Error reading PID file: "
                          +:+ py.int_error (py.strip ("12a" +:+ py.nl)))) d' w'
    ∧ pid d' = None
    ∧ fs w' !! absolute example.svc_pid = Some (File ("12a" +:+ py.nl)).
Proof.
  apply (init_rejects_bad_pid_file example.svc_pid ("12a" +:+ py.nl) true
           (example.world {[example.svc_pid := File ("12a" +:+ py.nl)]} [])).
  - reflexivity.
  - reflexivity.
Defined.

(** A PID file that holds [- 12] is no decimal integer as the
    specification has it, a sign and then digits, and yet the construction
    returns, with the PID -12 cached: [int] skips the white space after
    the sign. *)
Lemma init_accepts_blank_after_sign :
  decimal_integer (py.strip ("- 12" +:+ py.nl)) = false
  ∧ ∃ w', __init__ (Some example.svc_pid) true blank
            (example.world {[example.svc_pid := File ("- 12" +:+ py.nl)]} [])
          = Ret tt (set_pid (Some (-12)) example.idle) w'.
Proof. split; [reflexivity|]. eexists. vm_compute. reflexivity. Qed.

(** The message in full for an ordinary bad content. *)
Example init_bad_pid_file_message :
  ∃ d' w',
    __init__ (Some example.svc_pid) true blank
      (example.world {[example.svc_pid := File ("12a" +:+ py.nl)]} []) =
      Raise (DaemonError
               "Error reading PID file: invalid literal for int() with base 10: '12a'")
            d' w'.
Proof. eexists _, _. vm_compute. reflexivity. Qed.

(** The other side: a PID file that holds a decimal integer is read, and
    the instance caches the number. *)
Example init_reads_pid_file :
  ∃ w', __init__ (Some example.svc_pid) true blank
          (example.world {[example.svc_pid := File ("4242" +:+ py.nl)]} [])
        = Ret tt example.stale w'.
Proof. eexists. vm_compute. reflexivity. Qed.

(** No PID file: the instance is idle. *)
Example init_without_pid_file :
  ∃ w', __init__ (Some example.svc_pid) true blank (example.world ∅ [])
        = Ret tt example.idle w'
        ∧ fs w' !! "/tmp" = Some Dir.
Proof. eexists. split; vm_compute; reflexivity. Qed.

(** A constructed instance with a cached PID has a PID file path, made
    absolute, and is in daemon mode. *)
Lemma init_pid_has_pidfile (pf : option string) (tp : bool) (w : World)
    (d' : Daemon) (w' : World) :
  __init__ pf tp blank w = Ret tt d' w' → is_Some (pid d') →
  ∃ p, pf = Some p ∧ pidfile d' = Some (absolute p) ∧ inline d' = false.
Proof.
  destruct pf as [p|]; unfold __init__, create_dir, _validate, file_read, absolute; run.
  - destruct (nonempty _ && negb _); run.
    all: destruct (os_path_isabs p) eqn:Eabs; run.
    all: destruct (os_path_exists _ _); run.
    all: try (intros Hr; injection Hr as <- <-; intros [? Hn]; discriminate Hn).
    all: match goal with
         | |- context [@lookup string node _ _ ?q ?m] => destruct (m !! q) as [[c|]|]
         end; run.
    all: try discriminate.
    all: destruct (py.int (py.strip c)); run; try discriminate.
    all: intros Hr; injection Hr as <- <-; intros _; exists p; rewrite Eabs; auto.
  - intros Hr; injection Hr as <- <-. intros [? Hn]; discriminate Hn.
Qed.

End Construction.

(** ** The lifecycle operations *)

Section Lifecycle.
Import daemon.
Context `{C : Subclass}.


(** C7.  With the cached PID unset, [stop] logs one warning and returns
    [False]; the instance is unchanged and so is the environment apart
    from that log record: no file is removed or written and no signal is
    sent. *)
Theorem stop_without_pid (d : Daemon) (w : World) :
  pid d = None →
  stop d w = Ret false d (logged WARNING "Stopping process but unable to find PID" w)
  ∧ fs (logged WARNING "Stopping process but unable to find PID" w) = fs w
  ∧ trace (logged WARNING "Stopping process but unable to find PID" w) = trace w.
Proof.
  intros Hpid. unfold stop. run. rewrite Hpid. run. auto.
Qed.

(** C3.  In daemon mode, with a cached PID, [start] logs the status line
    and a warning and returns [False].  The instance is unchanged and the
    environment differs in the two log records only: no fork was made
    (the fork oracle is untouched, the trace has no call), and the result
    does not depend on the service body, which is not run. *)
Theorem start_with_cached_pid (d : Daemon) (w : World) (p : string) (n : Z) :
  inline d = false → pidfile d = Some p → pid d = Some n →
  let w' := logged WARNING ("PID file " +:+ quoted p
                            +:+ " exists.  Daemon may be running?" +:+ py.nl)
              (logged DEBUG ("checking daemon status with PID: " +:+ pretty n) w) in
  start d w = Ret false d w' ∧ trace w' = trace w ∧ forks w' = forks w ∧ fs w' = fs w.
Proof.
  intros Hi Hp Hn. unfold start, _start_daemon. run. rewrite Hi, Hp, Hn. run. auto.
Qed.

Lemma stop_not_delivered (d : Daemon) (w : World) (n errno : Z) :
  pid d = Some n → n ≠ 0 → c_int n = true → kill_errno w n SIGTERM = Some errno →
  stop d w = Ret false d (stop_failed d n errno w).
Proof.
  intros Hn Hz Hc Hk. unfold stop, os_kill, remove_files, stop_failed. run.
  rewrite Hn. run. destruct (n =? 0) eqn:E; [lia|]. run.
  rewrite Hc. signal_fits. run. rewrite Hk. run. destruct (errno =? 3); run; [|reflexivity].
  destruct (pidfile d); reflexivity.
Qed.

Lemma stop_delivered (d : Daemon) (w : World) (n : Z) :
  pid d = Some n → n ≠ 0 → c_int n = true → kill_errno w n SIGTERM = None →
  stop d w = Ret true (set_pid None d)
               (traced (Kill n SIGTERM)
                  (logged DEBUG ("Stopping daemon process with PID: " +:+ pretty n) w)).
Proof.
  intros Hn Hz Hc Hk. unfold stop, os_kill. run.
  rewrite Hn. run. destruct (n =? 0) eqn:E; [lia|]. run.
  rewrite Hc. signal_fits. run. rewrite Hk. run. reflexivity.
Qed.

(** A cached PID that does not fit a C [int]: the [OverflowError] of
    [os.kill] passes the [except OSError] of [stop]. *)
Lemma stop_overflow (d : Daemon) (w : World) (n : Z) :
  pid d = Some n → c_int n = false →
  stop d w = Raise (Uncaught "OverflowError") d
               (logged DEBUG ("Stopping daemon process with PID: " +:+ pretty n) w).
Proof.
  intros Hn Hc. unfold stop, os_kill. run.
  rewrite Hn. run. destruct (n =? 0) eqn:E.
  { apply Z.eqb_eq in E. subst n. discriminate Hc. }
  run. rewrite Hc. run. reflexivity.
Qed.

Lemma removed_fs (p : string) (w : World) : fs (removed p w) = delete p (fs w).
Proof. reflexivity. Qed.

Lemma removed_rest (p : string) (w : World) :
  trace (removed p w) = trace w ∧ kill_errno (removed p w) = kill_errno w
  ∧ logs (removed p w) = logs w.
Proof. auto. Qed.

Lemma stop_failed_rest (d : Daemon) (n errno : Z) (w : World) :
  kill_errno (stop_failed d n errno w) = kill_errno w
  ∧ (errno ≠ 3 → fs (stop_failed d n errno w) = fs w).
Proof.
  unfold stop_failed. destruct (errno =? 3) eqn:E.
  - split; [|lia]. destruct (pidfile d); [|reflexivity].
    now rewrite (proj1 (proj2 (removed_rest _ _))).
  - auto.
Qed.

(** C4.  When the signal to the cached PID is not delivered, [stop]
    returns [False] and keeps the instance as it is.  If the error is
    "no such process" the file system afterwards is the one before with
    the PID file deleted; for any other error it is the one before.  (A
    cached PID of 0 is false in Python: [stop] sends no signal for it, so
    delivery cannot fail.  Delivery is attempted, and so can fail with an
    error of the operating system, for the PIDs that [os.kill] takes,
    those of a C [int].) *)
Theorem stop_signal_not_delivered (d : Daemon) (w : World) (p : string) (n errno : Z) :
  pid d = Some n → n ≠ 0 → c_int n = true → pidfile d = Some p →
  kill_errno w n SIGTERM = Some errno →
  ∃ w', stop d w = Ret false d w'
        ∧ fs w' = if errno =? ESRCH then delete p (fs w) else fs w.
Proof.
  intros Hn Hz Hc Hp Hk. exists (stop_failed d n errno w).
  split; [now apply stop_not_delivered|].
  unfold ESRCH. destruct (errno =? 3) eqn:E.
  - unfold stop_failed. rewrite E, Hp. reflexivity.
  - apply stop_failed_rest. lia.
Qed.

Lemma status_probes (d : Daemon) (w : World) (n : Z) :
  pid d = Some n → c_int n = true →
  status d w = Ret (bool_decide (kill_errno w n 0 = None)) d (traced (Kill n 0) w).
Proof.
  intros Hn Hc. unfold status, os_kill. run. rewrite Hn. run. rewrite Hc. signal_fits. run.
  destruct (kill_errno w n 0); reflexivity.
Qed.

Lemma status_overflow (d : Daemon) (w : World) (n : Z) :
  pid d = Some n → c_int n = false →
  status d w = Raise (Uncaught "OverflowError") d w.
Proof.
  intros Hn Hc. unfold status, os_kill. run. rewrite Hn. run. rewrite Hc. run.
  reflexivity.
Qed.

Lemma status_idle (d : Daemon) (w : World) : pid d = None → status d w = Ret false d w.
Proof. intros Hn. unfold status. run. now rewrite Hn. Qed.

(** C9.  After a [stop] that met "no such process" the instance still
    holds the stale PID although the PID file is gone, and the next
    [status] or [stop] on the instance addresses that same PID: the probe
    and the signal are the calls added to the trace.  (The PID is one the
    operating system was asked about, so one of a C [int].) *)
Theorem stale_pid_stays_cached (d : Daemon) (w : World) (p : string) (n : Z) :
  pid d = Some n → n ≠ 0 → c_int n = true → pidfile d = Some p →
  kill_errno w n SIGTERM = Some ESRCH →
  ∃ d1 w1,
    stop d w = Ret false d1 w1
    ∧ pid d1 = Some n
    ∧ fs w1 !! p = None
    ∧ (∃ alive w2, status d1 w1 = Ret alive d1 w2 ∧ trace w2 = trace w1 ++ [Kill n 0])
    ∧ (∃ w2, stop d1 w1 = Ret false d1 w2
             ∧ trace w2 = trace w1 ++ [Kill n SIGTERM]).
Proof.
  intros Hn Hz Hc Hp Hk. exists d, (stop_failed d n ESRCH w).
  assert (Hk1 : kill_errno (stop_failed d n ESRCH w) n SIGTERM = Some ESRCH)
    by (rewrite (proj1 (stop_failed_rest d n ESRCH w)); exact Hk).
  split; [now apply stop_not_delivered|]. split; [exact Hn|]. split.
  { unfold stop_failed. rewrite Hp. cbn [ESRCH Z.eqb Pos.eqb].
    rewrite removed_fs. apply lookup_delete_eq. }
  split.
  - eexists _, _. split; [apply status_probes; [exact Hn|exact Hc]|]. reflexivity.
  - eexists. split; [apply (stop_not_delivered d _ n ESRCH); assumption|].
    unfold stop_failed at 1. rewrite Hp. cbn [ESRCH Z.eqb Pos.eqb].
    now rewrite (proj1 (removed_rest _ _)).
Qed.



(** With a cached PID that does not fit a C [int], [restart] ends in
    [stop]: the [OverflowError] of [os.kill] is raised out of it, after
    the first three log records and before any call: no signal, no sleep,
    no [start]. *)
Lemma restart_overflow (d : Daemon) (w : World) (n : Z) :
  pid d = Some n → c_int n = false →
  let log_msg := __name__ +:+ " daemon --" in
  restart d w =
    Raise (Uncaught "OverflowError") d
      (logged DEBUG ("Stopping daemon process with PID: " +:+ pretty n)
         (logged INFO (log_msg +:+ " stopping ...")
            (logged INFO (log_msg +:+ " attempting restart ...") w))).
Proof.
  intros Hn Hc log_msg. unfold restart. fold log_msg.
  unfold bind at 1 2 3 4 5 6, log at 1 2, upd at 1 2, ret.
  rewrite (stop_overflow d _ n Hn Hc). reflexivity.
Qed.

Lemma start_inline (d : Daemon) (w : World) :
  inline d = true →
  start d w = match _start (exit_event d) d w with
              | Ret _ d' w' => Ret true d' w'
              | Raise e d' w' => Raise e d' w'
              end.
Proof.
  intros Hi. unfold start. run. rewrite Hi. unfold bind, ret.
  destruct (_start (exit_event d) d w); reflexivity.
Qed.


(** C10.  In inline mode [start] returns exactly when the service body
    returns, and the value is then [True], whatever the body did to the
    instance and the environment: [False] is never returned in inline
    mode. *)
Theorem inline_start_returns_true (d : Daemon) (w : World) :
  inline d = true →
  ∀ b d' w', start d w = Ret b d' w' ↔ b = true ∧ _start (exit_event d) d w = Ret tt d' w'.
Proof.
  intros Hi b d' w'. rewrite start_inline by exact Hi.
  destruct (_start (exit_event d) d w) as [[] d1 w1|e d1 w1]; split.
  - intros Hs. injection Hs as <- <- <-. auto.
  - intros [-> Hb]. injection Hb as <- <-. reflexivity.
  - discriminate.
  - intros [_ Hb]. discriminate.
Qed.

(** [False] comes from the daemon-mode path only. *)
Corollary start_false_in_daemon_mode (d d' : Daemon) (w w' : World) :
  start d w = Ret false d' w' → inline d = false ∧ _start_daemon d w = Ret false d' w'.
Proof.
  intros Hs. destruct (inline d) eqn:Hi.
  - rewrite start_inline in Hs by exact Hi.
    destruct (_start (exit_event d) d w); discriminate.
  - split; [reflexivity|]. unfold start in Hs. revert Hs. run. now rewrite Hi.
Qed.

End Lifecycle.

(** ** The lifecycle theorems at work on [example.DummyDaemon] *)

Section LifecycleWitnesses.
Import daemon.

Lemma stop_without_pid_witness :
  stop example.idle (example.world ∅ []) =
    Ret false example.idle
      (logged WARNING "Stopping process but unable to find PID" (example.world ∅ []))
  ∧ fs (logged WARNING "Stopping process but unable to find PID" (example.world ∅ [])) = ∅
  ∧ trace (logged WARNING "Stopping process but unable to find PID" (example.world ∅ [])) = [].
Proof.
  apply (stop_without_pid example.idle (example.world ∅ [])). reflexivity.
Defined.

Lemma start_with_cached_pid_witness :
  start (C := example.DummyDaemon) example.stale example.stale_world =
    Ret false example.stale
      (logged WARNING ("PID file " +:+ quoted example.svc_pid
                       +:+ " exists.  Daemon may be running?" +:+ py.nl)
         (logged DEBUG ("checking daemon status with PID: " +:+ pretty 4242) example.stale_world)).
Proof.
  apply (start_with_cached_pid (C := example.DummyDaemon) example.stale example.stale_world
           example.svc_pid 4242); reflexivity.
Defined.

Lemma stop_signal_not_delivered_witness :
  ∃ w', stop example.stale example.stale_world = Ret false example.stale w'
        ∧ fs w' = if ESRCH =? ESRCH
                  then delete example.svc_pid (fs example.stale_world)
                  else fs example.stale_world.
Proof.
  apply (stop_signal_not_delivered example.stale example.stale_world example.svc_pid 4242 ESRCH).
  - reflexivity.
  - discriminate.
  - reflexivity.
  - reflexivity.
  - reflexivity.
Defined.

Lemma stale_pid_stays_cached_witness :
  ∃ d1 w1,
    stop example.stale example.stale_world = Ret false d1 w1
    ∧ pid d1 = Some 4242
    ∧ fs w1 !! example.svc_pid = None
    ∧ (∃ alive w2, status d1 w1 = Ret alive d1 w2 ∧ trace w2 = trace w1 ++ [Kill 4242 0])
    ∧ (∃ w2, stop d1 w1 = Ret false d1 w2 ∧ trace w2 = trace w1 ++ [Kill 4242 SIGTERM]).
Proof.
  apply (stale_pid_stays_cached example.stale example.stale_world example.svc_pid 4242).
  - reflexivity.
  - discriminate.
  - reflexivity.
  - reflexivity.
  - reflexivity.
Defined.





Lemma inline_start_returns_true_witness :
  ∃ d' w',
    start (C := example.DummyDaemon) (set_inline true example.idle) (example.world ∅ [])
      = Ret true d' w'
    ∧ exit_event d' = true.
Proof.
  eexists _, _. split.
  - apply (inline_start_returns_true (C := example.DummyDaemon)
             (set_inline true example.idle) (example.world ∅ []) eq_refl).
    split; reflexivity.
  - reflexivity.
Defined.

(** The class [Daemon] itself has no usable body: in inline mode [start]
    fails on the call, and so returns nothing. *)
Example base_class_start_raises :
  ∃ e, start (C := Base) (set_inline true example.idle) (example.world ∅ [])
       = Raise (TypeError e) (set_inline true example.idle) (example.world ∅ []).
Proof. eexists. reflexivity. Qed.

(** A restart of an idle instance, followed into the detached child:
    [stop] fails, the sleep is traced, and [start] detaches and runs the
    body. *)
Example restart_idle :
  ∃ d' w', restart (C := example.DummyDaemon) example.idle (example.world ∅ [NullHandler])
           = Ret tt d' w'
         ∧ trace w' = [Sleep 2; Fork; Setsid; Fork]
         ∧ fs w' !! example.svc_pid = Some (File ("902" +:+ py.nl))
         ∧ atexit w' = [Delpid].
Proof. eexists _, _. split; [vm_compute; reflexivity|]. repeat split; vm_compute; reflexivity. Qed.

End LifecycleWitnesses.

(** ** The descriptor clean-up of [daemonize] *)

Section Descriptors.
Import daemon.

(** With no handler the outer loop has no turn, and the loop over the
    descriptors, which is inside it, never runs. *)
Lemma close_descriptors_no_handler (filenos : list Z) (maxfd : Z) (d : Daemon) (w : World) :
  close_descriptors [] filenos maxfd d w = Ret filenos d w.
Proof. reflexivity. Qed.

(** C1, at an input where the code departs from it.  The process has a
    terminal on descriptors 0 to 2 and files on 3, 5 and 7, the logger
    has no handler, and both forks give the child.  [daemonize] then
    closes nothing: descriptor 3 is still open afterwards, the standard
    streams are still the terminal, and the null device was opened on the
    first free descriptor, 4. *)
Theorem daemonize_without_handlers :
  ∃ w', daemonize example.idle (example.world ∅ []) = Ret tt example.idle w'
        ∧ fds w' !! 3 = Some "/var/lib/svc/data"
        ∧ fds w' !! 0 = Some "/dev/tty"
        ∧ fds w' !! 1 = Some "/dev/tty"
        ∧ fds w' !! 4 = Some "/dev/null"
        ∧ fs w' !! example.svc_pid = Some (File ("902" +:+ py.nl)).
Proof.
  eexists. split; [vm_compute; reflexivity|]. repeat split; vm_compute; reflexivity.
Qed.

(** Two file handlers: the pass made for the first closes the descriptor
    of the second. *)
Example daemonize_two_handlers :
  ∃ w', daemonize example.idle
          (example.world ∅ [StreamHandler 5; StreamHandler 7]) = Ret tt example.idle w'
        ∧ fds w' !! 5 = Some "/var/log/svc.log"
        ∧ fds w' !! 7 = None
        ∧ fds w' !! 3 = None
        ∧ fds w' !! 0 = Some "/dev/null"
        ∧ fds w' !! 2 = Some "/dev/null".
Proof.
  eexists. split; [vm_compute; reflexivity|]. repeat split; vm_compute; reflexivity.
Qed.

(** A console handler before a file handler: the pass made for the
    console handler closes the file handler's descriptor. *)
Example daemonize_console_then_file :
  ∃ w', daemonize example.idle
          (example.world ∅ [StreamHandler 2; StreamHandler 5]) = Ret tt example.idle w'
        ∧ fds w' !! 5 = None
        ∧ fds w' !! 0 = Some "/dev/null".
Proof.
  eexists. split; [vm_compute; reflexivity|]. repeat split; vm_compute; reflexivity.
Qed.

(** One turn of the inner loop: the descriptor is closed unless it is in
    [filenos]; closing a descriptor that is not open raises [OSError],
    which the [try] statement drops. *)
Lemma close_unless_fds (filenos : list Z) (x : Z) (d : Daemon) (w : World) :
  ∃ w', close_unless filenos x d w = Ret tt d w'
        ∧ fds w' = if bool_decide (x ∈ filenos) then fds w else delete x (fds w).
Proof.
  unfold close_unless, os_close. run. destruct (bool_decide (x ∈ filenos)); run; [eauto|].
  destruct (fds w !! x) eqn:E; run.
  - eauto.
  - eexists; split; [reflexivity|]. symmetry. now apply delete_id.
Qed.

(** A whole pass over [l] returns, whatever is open, and closes the
    descriptors of [l] that are not in [filenos]. *)
Lemma close_pass_fds (filenos l : list Z) (d : Daemon) (w : World) :
  ∃ w', for_each l (close_unless filenos) d w = Ret tt d w'
        ∧ ∀ fd, fds w' !! fd =
                if bool_decide (fd ∈ l ∧ fd ∉ filenos) then None else fds w !! fd.
Proof.
  revert w. induction l as [|x l IH]; intros w.
  - exists w. split; [reflexivity|]. intros fd.
    rewrite bool_decide_eq_false_2; [reflexivity|]. intros [Hin _]. inversion Hin.
  - destruct (close_unless_fds filenos x d w) as (w1 & H1 & Hf1).
    destruct (IH w1) as (w' & H' & Hf').
    exists w'. split.
    + cbn [for_each]. unfold bind. rewrite H1. exact H'.
    + intros fd. rewrite Hf', Hf1.
      destruct (decide (fd = x)) as [->|Hne].
      * repeat case_bool_decide; try rewrite lookup_delete_eq; try reflexivity;
          exfalso; rewrite ?elem_of_cons in *; intuition congruence.
      * repeat case_bool_decide; try rewrite lookup_delete_ne by congruence;
          try reflexivity; exfalso; rewrite ?elem_of_cons in *; intuition congruence.
Qed.

(** Once everything outside [filenos] is closed, further handlers change
    no descriptor: [filenos] only grows. *)
Lemma close_descriptors_later (hs : list handler) (maxfd : Z) :
  ∀ (filenos : list Z) (d : Daemon) (w : World),
    (∀ fd, fd ∈ range maxfd → fd ∉ filenos → fds w !! fd = None) →
    ∃ filenos' w', close_descriptors hs filenos maxfd d w = Ret filenos' d w'
                   ∧ ∀ fd, fds w' !! fd = fds w !! fd.
Proof.
  induction hs as [|h hs IH]; intros filenos d w Hclosed.
  - exists filenos, w. split; reflexivity.
  - cbn [close_descriptors].
    set (filenos1 := match fileno_above_2 h with
                     | Some fd => filenos ++ [fd]
                     | None => filenos
                     end).
    assert (Hsub : ∀ fd, fd ∉ filenos1 → fd ∉ filenos).
    { intros fd. unfold filenos1. destruct (fileno_above_2 h); [|auto].
      rewrite elem_of_app. tauto. }
    destruct (close_pass_fds filenos1 (range maxfd) d w) as (w1 & H1 & Hf1).
    assert (Hsame : ∀ fd, fds w1 !! fd = fds w !! fd).
    { intros fd. rewrite Hf1. case_bool_decide as Hc; [|reflexivity].
      destruct Hc as [Hr Hn]. symmetry. apply Hclosed; auto. }
    destruct (IH filenos1 d w1) as (filenos' & w' & H' & Hf').
    { intros fd Hr Hn. rewrite Hsame. apply Hclosed; auto. }
    exists filenos', w'. split.
    + unfold bind. rewrite H1. exact H'.
    + intros fd. now rewrite Hf', Hsame.
Qed.

(** What the clean-up does when there is a handler: the descriptors in
    range are closed, all but the one the first handler contributes.  The
    later handlers have no say. *)
Lemma close_descriptors_first_handler
    (h : handler) (hs : list handler) (maxfd : Z) (d : Daemon) (w : World) :
  ∃ filenos' w',
    close_descriptors (h :: hs) [] maxfd d w = Ret filenos' d w'
    ∧ ∀ fd, fds w' !! fd =
            if bool_decide (fd ∈ range maxfd ∧ fileno_above_2 h ≠ Some fd)
            then None else fds w !! fd.
Proof.
  cbn [close_descriptors].
  set (filenos1 := match fileno_above_2 h with
                   | Some fd => [] ++ [fd]
                   | None => []
                   end).
  destruct (close_pass_fds filenos1 (range maxfd) d w) as (w1 & H1 & Hf1).
  destruct (close_descriptors_later hs maxfd filenos1 d w1) as (filenos' & w' & H' & Hf').
  { intros fd Hr Hn. rewrite Hf1. rewrite bool_decide_eq_true_2; auto. }
  exists filenos', w'. split.
  - unfold bind. rewrite H1. exact H'.
  - intros fd. rewrite Hf', Hf1. unfold filenos1.
    destruct (fileno_above_2 h) as [k|]; repeat case_bool_decide; try reflexivity;
      exfalso; rewrite ?elem_of_app, ?elem_of_cons, ?elem_of_nil in *;
      intuition congruence.
Qed.

End Descriptors.

(** ** The service controller *)

Section Controller.
Import service.

Lemma parser_error_exits {A} (msg : string) (s : Service) (w : World) :
  @parser_error A msg s w = Raise (SystemExit 2) s (usage_error msg w).
Proof. reflexivity. Qed.

(** C8, as the code has it.  When no command is predefined, a dry-run or
    batch modifier on a command line whose positional arguments are not
    the single command [start] ends in [parser.error]: the usage and a
    message are written to the standard error stream and the process
    exits with status 2; no attribute of the controller is set. *)
Theorem check_args_rejects_modifiers
    (options : Options) (args : list string) (script_name : string)
    (s : Service) (w : World) :
  args ≠ ["start"] →
  py.flag (dry options) || py.flag (batch options) = true →
  ∃ msg,
    check_args options args script_name None s w =
      Raise (SystemExit 2) s
        (usage_error msg (if bool_decide (dry options ≠ None) then traced SetConsole w else w)).
Proof.
  intros Hargs Hflag. unfold check_args, set_console, emit.
  unfold bind at 1 2. 
  set (w0 := if bool_decide (dry options ≠ None) then traced SetConsole w else w).
  assert (Hw0 : (if bool_decide (dry options ≠ None) then upd (traced SetConsole) else ret tt) s w
                = Ret tt s w0).
  { unfold w0. destruct (bool_decide (dry options ≠ None)); reflexivity. }
  rewrite Hw0. unfold command_from_args.
  destruct args as [|cmd [|a args]].
  - exists "incorrect number of arguments". reflexivity.
  - unfold bind at 1 2 3, get at 1.
    destruct (bool_decide (cmd ∈ _supported_commands s)).
    + exists ("invalid option(s) with command " +:+ quoted cmd).
      unfold ret at 1. unfold bind at 1.
      assert (Hne : String.eqb cmd "start" = false).
      { apply String.eqb_neq. intros ->. now apply Hargs. }
      rewrite Hne, Hflag. reflexivity.
    + exists ("command " +:+ quoted cmd +:+ " not supported"). reflexivity.
  - exists "incorrect number of arguments". reflexivity.
Qed.

Lemma check_args_rejects_modifiers_witness :
  ∃ msg,
    check_args dry_run ["stop"] "svc" None blank (example.world ∅ []) =
      Raise (SystemExit 2) blank
        (usage_error msg
           (if bool_decide (dry dry_run ≠ None)
            then traced SetConsole (example.world ∅ []) else example.world ∅ [])).
Proof.
  apply (check_args_rejects_modifiers dry_run ["stop"] "svc" blank (example.world ∅ [])).
  - discriminate.
  - reflexivity.
Defined.

(** C8 as stated does not hold when the caller predefines the command:
    the command line [-d stop], under a controller whose command is
    preset to [stop], is accepted, and the controller is set up. *)
Lemma check_args_predefined_command_accepts_modifier :
  ∃ s' w',
    check_args dry_run ["stop"] "svc" (Some "stop") blank (example.world ∅ []) = Ret tt s' w'
    ∧ _command s' = Some "stop"
    ∧ _options s' = Some dry_run
    ∧ stderr w' = [].
Proof. eexists _, _. split; [vm_compute; reflexivity|]. repeat split; reflexivity. Qed.

End Controller.

(** * Further properties of [daemoniser.daemon] *)

Section MoreLifecycle.
Import daemon.
Context `{C : Subclass}.

(** [status] is a probe and nothing else.  With no PID cached it answers
    [False] and does nothing.  With a cached PID that fits a C [int] it
    sends signal 0 to it and returns, [True] exactly when the signal was
    delivered: every [OSError], whatever its number, gives [False].  With
    a cached PID that does not fit, it raises the [OverflowError] of
    [os.kill] and has made no call.  In each case the instance, the files,
    the open descriptors and the log are left as they are. *)
Theorem status_is_a_probe (d : Daemon) (w : World) :
  status d w =
    match pid d with
    | None => Ret false d w
    | Some n =>
        if c_int n
        then Ret (bool_decide (kill_errno w n 0 = None)) d (traced (Kill n 0) w)
        else Raise (Uncaught "OverflowError") d w
    end
  ∧ ∀ n, fs (traced (Kill n 0) w) = fs w ∧ logs (traced (Kill n 0) w) = logs w
         ∧ fds (traced (Kill n 0) w) = fds w
         ∧ trace (traced (Kill n 0) w) = trace w ++ [Kill n 0].
Proof.
  split; [|intros n; repeat split; reflexivity].
  destruct (pid d) as [n|] eqn:Hn.
  - destruct (c_int n) eqn:Hc.
    + exact (status_probes d w n Hn Hc).
    + exact (status_overflow d w n Hn Hc).
  - exact (status_idle d w Hn).
Qed.

(** A delivered signal: [stop] returns [True] and forgets the PID, having
    sent one [SIGTERM]; it does not wait and does not touch the PID file,
    which is left for the daemon's own exit hook.  (A signal is delivered
    to a PID that [os.kill] takes, one of a C [int].) *)
Theorem stop_delivered_keeps_file (d : Daemon) (w : World) (n : Z) :
  pid d = Some n → n ≠ 0 → c_int n = true → kill_errno w n SIGTERM = None →
  ∃ d' w',
    stop d w = Ret true d' w'
    ∧ pid d' = None ∧ pidfile d' = pidfile d
    ∧ fs w' = fs w
    ∧ trace w' = trace w ++ [Kill n SIGTERM].
Proof.
  intros Hn Hz Hc Hk. eexists _, _. split; [apply (stop_delivered d w n); assumption|].
  repeat split; reflexivity.
Qed.

(** A cached PID of 0, as a PID file holding [0] gives it, is a false value
    in [if self.pid]: [stop] sends no signal (signal to process 0 would
    reach the caller's own process group), warns and returns [False]. *)
Theorem stop_pid_zero_sends_nothing (d : Daemon) (w : World) :
  pid d = Some 0 →
  ∃ w', stop d w = Ret false d w' ∧ trace w' = trace w ∧ fs w' = fs w
        ∧ logs w' = logs w ++ [(WARNING, "PID file exists with invalid value: "
                                         +:+ quoted "0")].
Proof.
  intros Hn. unfold stop. run. rewrite Hn. run. eexists. split; [reflexivity|].
  repeat split; reflexivity.
Qed.

(** [restart] on an instance whose [stop] fails never starts anything: the
    PID stays cached, so [start] refuses with its warning, although with
    "no such process" the PID file was removed a moment before.  The
    calls made are the signal and the sleep; no fork, no service body.
    (The signal is refused by the operating system, so the PID is one of
    a C [int].) *)
Theorem restart_after_failed_stop (d : Daemon) (w : World) (p : string) (n errno : Z) :
  inline d = false → pidfile d = Some p → pid d = Some n → n ≠ 0 → c_int n = true →
  kill_errno w n SIGTERM = Some errno →
  ∃ w', restart d w = Ret tt d w'
        ∧ trace w' = trace w ++ [Kill n SIGTERM; Sleep 2]
        ∧ forks w' = forks w
        ∧ fs w' = (if errno =? ESRCH then delete p (fs w) else fs w)
        ∧ last (logs w') = Some (WARNING, "PID file " +:+ quoted p
                                   +:+ " exists.  Daemon may be running?" +:+ py.nl).
Proof.
  intros Hi Hp Hn Hz Hc Hk. unfold restart, time_sleep.
  unfold bind at 1 2 3 4 5 6, log at 1 2, upd at 1 2, ret.
  rewrite (stop_not_delivered d _ n errno) by assumption.
  unfold emit, log, upd, start, _start_daemon. run. rewrite Hi, Hp, Hn. run.
  eexists. split; [reflexivity|].
  unfold stop_failed, ESRCH. rewrite Hp.
  destruct (errno =? 3); repeat split; cbn; try reflexivity.
  all: try (rewrite <- !app_assoc; reflexivity).
  all: rewrite last_snoc; reflexivity.
Qed.

End MoreLifecycle.

Section MoreLifecycleWitnesses.
Import daemon.

Lemma stop_delivered_keeps_file_witness :
  ∃ d' w',
    stop (set_pid (Some 77) example.idle) example.stale_world = Ret true d' w'
    ∧ pid d' = None ∧ pidfile d' = pidfile (set_pid (Some 77) example.idle)
    ∧ fs w' = fs example.stale_world
    ∧ trace w' = trace example.stale_world ++ [Kill 77 SIGTERM].
Proof.
  apply (stop_delivered_keeps_file (set_pid (Some 77) example.idle)
           example.stale_world 77).
  - reflexivity.
  - discriminate.
  - reflexivity.
  - reflexivity.
Defined.

Lemma stop_pid_zero_sends_nothing_witness :
  ∃ w', stop (set_pid (Some 0) example.idle) example.stale_world =
          Ret false (set_pid (Some 0) example.idle) w'
        ∧ trace w' = trace example.stale_world ∧ fs w' = fs example.stale_world
        ∧ logs w' = logs example.stale_world
                    ++ [(WARNING, "PID file exists with invalid value: " +:+ quoted "0")].
Proof.
  apply (stop_pid_zero_sends_nothing (set_pid (Some 0) example.idle) example.stale_world).
  reflexivity.
Defined.

Lemma restart_after_failed_stop_witness :
  ∃ w', restart (C := example.DummyDaemon) example.stale example.stale_world =
          Ret tt example.stale w'
        ∧ trace w' = trace example.stale_world ++ [Kill 4242 SIGTERM; Sleep 2]
        ∧ forks w' = forks example.stale_world
        ∧ fs w' = (if ESRCH =? ESRCH then delete example.svc_pid (fs example.stale_world)
                   else fs example.stale_world)
        ∧ last (logs w') = Some (WARNING, "PID file " +:+ quoted example.svc_pid
                                   +:+ " exists.  Daemon may be running?" +:+ py.nl).
Proof.
  apply (restart_after_failed_stop (C := example.DummyDaemon) example.stale
           example.stale_world example.svc_pid 4242 ESRCH).
  - reflexivity.
  - reflexivity.
  - reflexivity.
  - discriminate.
  - reflexivity.
  - reflexivity.
Defined.

End MoreLifecycleWitnesses.

(** ** The PID file: what is written is what is read *)

Section PidText.

Lemma digit_pretty_char (m : N) :
  (m < 10)%N → py.digit (pretty_N_char m) = Some (Z.of_N m).
Proof.
  intros Hm.
  assert (m = 0 ∨ m = 1 ∨ m = 2 ∨ m = 3 ∨ m = 4 ∨ m = 5 ∨ m = 6 ∨ m = 7 ∨ m = 8
          ∨ m = 9)%N as Hc by lia.
  repeat (destruct Hc as [->|Hc]; [reflexivity|]). now subst.
Qed.

(** The digits that [pretty] puts before [s] are read back as the number. *)
Lemma digits_pretty_go (x : N) :
  ∀ s, ∃ k : nat, ∀ acc,
    py.digits acc (pretty_N_go x s) = py.digits (acc * 10 ^ Z.of_nat k + Z.of_N x) s.
Proof.
  induction (N.lt_wf_0 x) as [x _ IH]. intros s.
  destruct (decide (x = 0%N)) as [->|Hx].
  - exists O. intros acc. rewrite pretty_N_go_0. f_equal. cbn. lia.
  - rewrite pretty_N_go_step by lia.
    destruct (IH (x `div` 10)%N) with (s := String (pretty_N_char (x `mod` 10)) s)
      as [k Hk].
    { apply N.div_lt; lia. }
    exists (S k). intros acc. rewrite Hk. cbn [py.digits].
    rewrite digit_pretty_char by (apply N.mod_lt; lia).
    f_equal. rewrite Nat2Z.inj_succ, Z.pow_succ_r by lia.
    rewrite N2Z.inj_div, N2Z.inj_mod.
    pose proof (Z.div_mod (Z.of_N x) 10 ltac:(lia)) as Hdm. lia.
Qed.

Lemma all_digits_pretty_go (x : N) :
  ∀ s, all_digits s = true → all_digits (pretty_N_go x s) = true.
Proof.
  induction (N.lt_wf_0 x) as [x _ IH]. intros s Hs.
  destruct (decide (x = 0%N)) as [->|Hx]; [now rewrite pretty_N_go_0|].
  rewrite pretty_N_go_step by lia. apply IH; [apply N.div_lt; lia|].
  cbn [all_digits]. rewrite Hs, digit_pretty_char by (apply N.mod_lt; lia).
  rewrite bool_decide_eq_true_2 by eauto. reflexivity.
Qed.

Lemma nonempty_pretty_go (x : N) :
  ∀ s, nonempty s = true → nonempty (pretty_N_go x s) = true.
Proof.
  induction (N.lt_wf_0 x) as [x _ IH]. intros s Hs.
  destruct (decide (x = 0%N)) as [->|Hx]; [now rewrite pretty_N_go_0|].
  rewrite pretty_N_go_step by lia. apply IH; [apply N.div_lt; lia|reflexivity].
Qed.

Lemma pretty_positive_digits (p : positive) :
  all_digits (pretty p) = true ∧ nonempty (pretty p) = true
  ∧ py.digits 0 (pretty p) = Some (Z.pos p).
Proof.
  unfold pretty, pretty_positive, pretty, pretty_N.
  destruct (decide (N.pos p = 0%N)) as [|_]; [discriminate|].
  split; [now apply all_digits_pretty_go|]. split.
  - rewrite pretty_N_go_step by lia. now apply nonempty_pretty_go.
  - destruct (digits_pretty_go (N.pos p) EmptyString) as [k Hk]. rewrite Hk. reflexivity.
Qed.

(** A run of digits followed by a newline is stripped back to the digits. *)
Lemma rstrip_digits_nl s : all_digits s = true → py.rstrip (s +:+ py.nl) = s.
Proof.
  induction s as [|c s IH]; [reflexivity|]. cbn [all_digits]. intros Hd.
  apply andb_true_iff in Hd as [Hc Hs]. apply bool_decide_eq_true in Hc.
  change (String c s +:+ py.nl) with (String c (s +:+ py.nl)).
  rewrite rstrip_cons, IH by exact Hs. destruct s; [|reflexivity].
  now rewrite digit_not_space.
Qed.

Lemma signed_digits s :
  all_digits s = true → nonempty s = true → py.signed s = py.digits 0 s.
Proof.
  destruct s as [|c s]; [discriminate|]. cbn [all_digits]. intros Hd _.
  apply andb_true_iff in Hd as [Hc _]. apply bool_decide_eq_true in Hc.
  unfold py.signed.
  destruct (py.is_plus c) eqn:Ep.
  { rewrite sign_not_digit in Hc by (rewrite Ep; reflexivity). now destruct Hc. }
  destruct (py.is_minus c) eqn:Em.
  { rewrite sign_not_digit in Hc by (rewrite Ep, Em; reflexivity). now destruct Hc. }
  reflexivity.
Qed.

(** The text of a number and a newline is stripped back to the text. *)
Lemma strip_pretty_nl (n : Z) : py.strip (pretty n +:+ py.nl) = pretty n.
Proof.
  unfold py.strip. destruct n as [|p|p]; [reflexivity| |].
  - destruct (pretty_positive_digits p) as (Hd & Hn & Hv).
    change (pretty (Z.pos p)) with (pretty p).
    now rewrite rstrip_digits_nl, lstrip_digits.
  - destruct (pretty_positive_digits p) as (Hd & Hn & Hv).
    change (pretty (Z.neg p)) with (String "-" (pretty p)).
    change (String "-" (pretty p) +:+ py.nl) with (String "-" (pretty p +:+ py.nl)).
    rewrite rstrip_cons, rstrip_digits_nl by assumption.
    destruct (pretty p) as [|c s] eqn:E; [discriminate|]. reflexivity.
Qed.

(** The text of a number is read as the number. *)
Lemma signed_pretty (n : Z) : py.signed (pretty n) = Some n.
Proof.
  destruct n as [|p|p]; [reflexivity| |].
  - destruct (pretty_positive_digits p) as (Hd & Hn & Hv).
    change (pretty (Z.pos p)) with (pretty p).
    now rewrite signed_digits.
  - destruct (pretty_positive_digits p) as (Hd & Hn & Hv).
    change (pretty (Z.neg p)) with (String "-" (pretty p)).
    unfold py.signed. change (py.is_plus "-") with false.
    change (py.is_minus "-") with true. cbn iota.
    rewrite (lstrip_digits _ Hd).
    destruct (pretty p) as [|c s] eqn:E; [discriminate|].
    unfold py.unsigned. rewrite Hv. reflexivity.
Qed.

(** The text [daemonize] writes for a process identifier, ["%s\n" % pid],
    is read back by [int(text.strip())] as that identifier, for every
    integer. *)
Theorem pid_text_round_trip (n : Z) : py.int (py.strip (pretty n +:+ py.nl)) = Some n.
Proof.
  unfold py.int. rewrite strip_idem, strip_pretty_nl. apply signed_pretty.
Qed.

End PidText.

(** ** More on construction *)

Section MoreConstruction.
Import daemon.

Lemma absolute_isabs (p : string) : os_path_isabs (absolute p) = true.
Proof. unfold absolute. destruct (os_path_isabs p) eqn:E; [exact E|reflexivity]. Qed.

(** Whenever the construction returns, the instance is in daemon mode with
    the exit event clear and the parent-termination flag as given; its
    PID file path is the given one made absolute (a relative path gets the
    root in front, it is not resolved against the working directory), or
    [None] if none was given, and then nothing was read or made. *)
Theorem init_pidfile_absolute (pf : option string) (tp : bool) (w : World)
    (d' : Daemon) (w' : World) :
  __init__ pf tp blank w = Ret tt d' w' →
  inline d' = false ∧ exit_event d' = false ∧ term_parent d' = tp
  ∧ match pf with
    | Some p => pidfile d' = Some (absolute p) ∧ os_path_isabs (absolute p) = true
    | None => pidfile d' = None ∧ pid d' = None ∧ w' = w
    end.
Proof.
  destruct pf as [p|]; unfold __init__, create_dir, _validate, file_read; run.
  - pose proof (absolute_isabs p) as Habs. unfold absolute in *.
    destruct (nonempty _ && negb _); run.
    all: destruct (os_path_isabs p) eqn:Eabs; run.
    all: destruct (os_path_exists _ _); run.
    all: try (intros Hr; injection Hr as <- <-; auto).
    all: match goal with
         | |- context [@lookup string node _ _ ?q ?m] => destruct (m !! q) as [[c|]|]
         end; run.
    all: try discriminate.
    all: destruct (py.int (py.strip c)); run; try discriminate.
    all: intros Hr; injection Hr as <- <-; auto.
  - intros Hr; injection Hr as <- <-. repeat split; reflexivity.
Qed.

Lemma init_pidfile_absolute_witness :
  inline example.idle = false ∧ exit_event example.idle = false
  ∧ term_parent example.idle = true
  ∧ pidfile example.idle = Some (absolute "tmp/svc.pid")
  ∧ os_path_isabs (absolute "tmp/svc.pid") = true.
Proof.
  apply (init_pidfile_absolute (Some "tmp/svc.pid") true (example.world ∅ [])
           example.idle
           (logged DEBUG ("PID file now " +:+ quoted "/tmp/svc.pid")
              (logged DEBUG ("PID file " +:+ quoted "tmp/svc.pid"
                             +:+ " is relative -- make absolute")
                 (with_fs (insert "tmp" Dir) (example.world ∅ []))))).
  vm_compute. reflexivity.
Defined.

(** A PID file whose stripped text [int] accepts is read at construction:
    the instance caches the number, and the file is left as it was. *)
Lemma init_caches (p content : string) (n : Z) (tp : bool) (w : World) :
  fs w !! absolute p = Some (File content) →
  py.int (py.strip content) = Some n →
  ∃ d' w',
    __init__ (Some p) tp blank w = Ret tt d' w'
    ∧ pid d' = Some n ∧ pidfile d' = Some (absolute p)
    ∧ fs w' !! absolute p = Some (File content).
Proof.
  intros Hfile Hint.
  unfold __init__. unfold bind at 1 2 3. unfold get at 1, put at 1.
  destruct (create_dir_keeps_file (os_path_dirname p) (absolute p) content
              (set_pidfile (Some p) blank) w Hfile) as (w1 & Hc & Hf1).
  rewrite Hc. unfold _validate, absolute, file_read, os_path_exists in *. run.
  destruct (os_path_isabs p) eqn:Eabs; run.
  all: rewrite bool_decide_eq_true_2 by (cbn; rewrite Hf1; eauto).
  all: run; rewrite Hf1; run; rewrite Hint; run.
  all: eexists _, _; split; [reflexivity|]; repeat split; cbn; auto.
Qed.

(** A PID file that holds a decimal integer (digits, a sign allowed,
    white space around) always constructs, and the cached PID is the
    number written. *)
Theorem init_reads_decimal_pid (p content : string) (tp : bool) (w : World) :
  fs w !! absolute p = Some (File content) →
  decimal_integer (py.strip content) = true →
  ∃ n d' w',
    py.int (py.strip content) = Some n
    ∧ __init__ (Some p) tp blank w = Ret tt d' w'
    ∧ pid d' = Some n ∧ pidfile d' = Some (absolute p)
    ∧ fs w' !! absolute p = Some (File content).
Proof.
  intros Hfile Hdec.
  destruct (py.int (py.strip content)) as [n|] eqn:Hint.
  - destruct (init_caches p content n tp w Hfile Hint) as (d' & w' & H).
    exists n, d', w'. split; [reflexivity|exact H].
  - destruct (int_strip_decimal content Hdec) as [n Hn]. congruence.
Qed.

Lemma init_reads_decimal_pid_witness :
  ∃ n d' w',
    py.int (py.strip (" +17 " +:+ py.nl)) = Some n
    ∧ __init__ (Some example.svc_pid) true blank
        (example.world {[example.svc_pid := File (" +17 " +:+ py.nl)]} []) = Ret tt d' w'
    ∧ pid d' = Some n ∧ pidfile d' = Some (absolute example.svc_pid)
    ∧ fs w' !! absolute example.svc_pid = Some (File (" +17 " +:+ py.nl)).
Proof.
  apply (init_reads_decimal_pid example.svc_pid (" +17 " +:+ py.nl) true
           (example.world {[example.svc_pid := File (" +17 " +:+ py.nl)]} []));
    reflexivity.
Defined.




Lemma nonempty_snoc (cur : string) (c : ascii) : nonempty (cur +:+ String c EmptyString) = true.
Proof. destruct cur; reflexivity. Qed.






(** A path that ends in a slash is not plain: made absolute, it is a
    longer name for its own directory. *)
Example trailing_slash_not_plain :
  plain_path "/var/run/svc/" = false ∧ plain_path "/var/run/svc/." = false
  ∧ plain_path "/var/run/./svc.pid" = false ∧ plain_path "var/run/svc.pid" = true.
Proof. repeat split; reflexivity. Qed.

(** Without a PID file path the construction touches nothing, and [start]
    in daemon mode then raises [DaemonError] before anything is logged or
    forked. *)
Theorem start_without_pidfile `{C : Subclass} (tp : bool) (w : World) :
  ∃ d,
    __init__ None tp blank w = Ret tt d w
    ∧ pid d = None
    ∧ start d w = Raise (DaemonError "PID file has not been defined") d w.
Proof. eexists. split; [reflexivity|]. split; reflexivity. Qed.

End MoreConstruction.

(** ** Detachment *)

Section Detachment.
Import daemon.

Lemma with_fds_id (w : World) : with_fds (λ _, fds w) w = w.
Proof. now destruct w. Qed.

(** The clean-up changes the descriptor table and nothing else. *)
Lemma close_unless_world (filenos : list Z) (x : Z) (d : Daemon) (w : World) :
  ∃ t, close_unless filenos x d w = Ret tt d (with_fds (λ _, t) w).
Proof.
  unfold close_unless, os_close. run. destruct (bool_decide (x ∈ filenos)); run.
  - exists (fds w). now rewrite with_fds_id.
  - destruct (fds w !! x) eqn:E; run.
    + eexists. reflexivity.
    + exists (fds w). now rewrite with_fds_id.
Qed.

Lemma close_pass_world (filenos l : list Z) (d : Daemon) (w : World) :
  ∃ t, for_each l (close_unless filenos) d w = Ret tt d (with_fds (λ _, t) w).
Proof.
  revert w. induction l as [|x l IH]; intros w.
  - exists (fds w). now rewrite with_fds_id.
  - destruct (close_unless_world filenos x d w) as (t1 & H1).
    destruct (IH (with_fds (λ _, t1) w)) as (t & Ht).
    exists t. cbn [for_each]. unfold bind. rewrite H1, Ht. reflexivity.
Qed.

Lemma close_descriptors_world (hs : list handler) (maxfd : Z) :
  ∀ (filenos : list Z) (d : Daemon) (w : World),
    ∃ filenos' t,
      close_descriptors hs filenos maxfd d w = Ret filenos' d (with_fds (λ _, t) w).
Proof.
  induction hs as [|h hs IH]; intros filenos d w.
  - exists filenos, (fds w). now rewrite with_fds_id.
  - cbn [close_descriptors].
    destruct (close_pass_world
                (match fileno_above_2 h with
                 | Some fd => filenos ++ [fd]
                 | None => filenos
                 end) (range maxfd) d w) as (t1 & H1).
    destruct (IH (match fileno_above_2 h with
                  | Some fd => filenos ++ [fd]
                  | None => filenos
                  end) d (with_fds (λ _, t1) w)) as (filenos' & t & Ht).
    exists filenos', t. unfold bind. rewrite H1, Ht. reflexivity.
Qed.

(** Descriptor 0 is open once a file has been opened: it was open, or it
    was the lowest free one. *)
Lemma open_gives_stdin (t : gmap Z string) (path : string) :
  is_Some (<[lowest_free t (size t) 0 := path]> t !! 0).
Proof.
  destruct (t !! 0) as [f|] eqn:E.
  - destruct (decide (lowest_free t (size t) 0 = 0)) as [->|Hne].
    + rewrite lookup_insert_eq. eauto.
    + rewrite lookup_insert_ne by exact Hne. rewrite E. eauto.
  - assert (lowest_free t (size t) 0 = 0) as ->.
    { destruct (size t); cbn; [reflexivity|]. now rewrite E. }
    rewrite lookup_insert_eq. eauto.
Qed.

(** [daemonize] in the process that both forks make the child, up to the
    write of the PID file. *)
Lemma daemonize_child (d : Daemon) (w : World) (a b : Z) (rest : list forked) :
  forks w = InChild a :: InChild b :: rest →
  ∃ t f,
    t !! 0 = Some f ∧ t !! 1 = Some f ∧ t !! 2 = Some f
    ∧ daemonize d w =
        match pidfile d with
        | Some p =>
            match file_write p (pretty b +:+ py.nl) d (detached b rest t w) with
            | Ret _ d' w' => Ret tt d' (with_atexit (λ hs, hs ++ [Delpid]) w')
            | Raise e d' w' => Raise e d' w'
            end
        | None =>
            Raise (TypeError "coercing to Unicode: need string or buffer, NoneType found")
              d (detached b rest t w)
        end.
Proof.
  intros Hf. unfold daemonize, fork_step, os_fork. run.
  rewrite Hf. run. rewrite Hf. run.
  match goal with
  | |- context [close_descriptors ?hs ?fl ?m ?dd ?ww] =>
      destruct (close_descriptors_world hs m fl dd ww) as (fl' & t0 & Ht0); rewrite Ht0
  end.
  unfold os_open, os_dup2. run.
  destruct (open_gives_stdin t0 "/dev/null") as [f Hf0].
  rewrite Hf0. run. rewrite lookup_insert_ne by discriminate. rewrite Hf0. run.
  exists (<[2 := f]> (<[1 := f]> (<[lowest_free t0 (size t0) 0 := "/dev/null"]> t0))), f.
  split; [rewrite !lookup_insert_ne by discriminate; exact Hf0|].
  split; [rewrite lookup_insert_ne by discriminate; apply lookup_insert_eq|].
  split; [apply lookup_insert_eq|].
  assert (Hw :
    logged DEBUG ("PID of child process: " +:+ pretty b)
      (with_fds <[2:=f]>
         (with_fds <[1:=f]>
            (with_fds <[lowest_free t0 (size t0) 0:="/dev/null"]>
               (with_fds (λ _ : gmap Z string, t0)
                  (after_fork b
                     (with_umask 0
                        (traced Setsid
                           (with_cwd "/"
                              (after_fork a
                                 (logged DEBUG "Attempting first fork ..." w)))))))))) =
    detached b rest
      (<[2 := f]> (<[1 := f]> (<[lowest_free t0 (size t0) 0 := "/dev/null"]> t0))) w).
  { cbv [detached logged traced after_fork with_fds with_umask with_cwd with_logs
         with_trace fs fds cwd umask getpid handlers logs stderr atexit trace forks
         kill_errno open_errno strerror nofile_hard prog].
    pose proof Hf as Hf'. cbv [forks] in Hf'. rewrite Hf'. cbv [tail].
    rewrite <- !app_assoc. reflexivity. }
  rewrite Hw. destruct (pidfile d); reflexivity.
Qed.

End Detachment.

Section Detached.
Import daemon.
Context `{C : Subclass}.

(** The environment in which [_start_daemon] calls [daemonize]. *)
Lemma start_daemon_unfold (d : Daemon) (w : World) (p : string) :
  inline d = false → pidfile d = Some p → pid d = None →
  start d w =
    try (daemonize ;; d' <- get ;; _start (exit_event d') ;; ret true)
        (λ e, match e with
              | IOError _ _ =>
                  Some (w' <- env ;;
                        raise (DaemonError ("Cannot write to PID file: IOError "
                                            +:+ quoted (str_exn w' e))))
              | _ => None
              end)
        d (logged DEBUG "starting daemon"
             (logged DEBUG "No PID file -- creating handle"
                (logged DEBUG "checking daemon status with PID: None" w))).
Proof.
  intros Hi Hp Hn. unfold start, _start_daemon.
  unfold bind at 1, get at 1. rewrite Hi.
  unfold bind at 1, get at 1. rewrite Hp, Hn.
  reflexivity.
Qed.

(** [daemonize] in the detached child when the PID file can be written. *)
Lemma daemonize_writes (d : Daemon) (w : World) (p : string) (a b : Z)
    (rest : list forked) :
  forks w = InChild a :: InChild b :: rest →
  pidfile d = Some p → open_errno w p = None → fs w !! p ≠ Some Dir →
  ∃ t, daemonize d w =
         Ret tt d (with_atexit (λ hs, hs ++ [Delpid])
                     (with_fs (insert p (File (pretty b +:+ py.nl)))
                        (detached b rest t w))).
Proof.
  intros Hf Hp Ho Hd.
  destruct (daemonize_child d w a b rest Hf) as (t & f & _ & _ & _ & Hdz).
  rewrite Hp in Hdz. unfold file_write in Hdz. revert Hdz. run. rewrite Ho.
  destruct (fs w !! p) as [[c|]|] eqn:E; [| congruence |]; intros Hdz.
  all: exists t; exact Hdz.
Qed.

(** The detached child: when both forks make the process followed the
    child and the PID file can be written, [daemonize] returns with the
    process in the root directory with mask 0, the session made between
    the two forks, descriptors 0, 1 and 2 open on one and the same file,
    the PID file holding the child's own identifier and a newline
    (whatever it held before), and the removal of the PID file registered
    as the one new exit hook. *)
Theorem daemonize_detached (d : Daemon) (w : World) (p : string) (a b : Z)
    (rest : list forked) :
  forks w = InChild a :: InChild b :: rest →
  pidfile d = Some p → open_errno w p = None → fs w !! p ≠ Some Dir →
  ∃ w',
    daemonize d w = Ret tt d w'
    ∧ fs w' = <[p := File (pretty b +:+ py.nl)]> (fs w)
    ∧ getpid w' = b ∧ cwd w' = "/" ∧ umask w' = 0
    ∧ trace w' = trace w ++ [Fork; Setsid; Fork] ∧ forks w' = rest
    ∧ atexit w' = atexit w ++ [Delpid]
    ∧ (∃ f, fds w' !! 0 = Some f ∧ fds w' !! 1 = Some f ∧ fds w' !! 2 = Some f).
Proof.
  intros Hf Hp Ho Hd.
  destruct (daemonize_child d w a b rest Hf) as (t & f & H0 & H1 & H2 & Hdz).
  rewrite Hp in Hdz. unfold file_write in Hdz. revert Hdz. run. rewrite Ho.
  destruct (fs w !! p) as [[c|]|] eqn:E; [| congruence |]; intros Hdz.
  all: eexists; split; [exact Hdz|]; repeat split; eauto.
Qed.

Lemma daemonize_detached_witness :
  ∃ w',
    daemonize example.idle (example.world ∅ [StreamHandler 5]) = Ret tt example.idle w'
    ∧ fs w' = <[example.svc_pid := File (pretty 902 +:+ py.nl)]> ∅
    ∧ getpid w' = 902 ∧ cwd w' = "/" ∧ umask w' = 0
    ∧ trace w' = [] ++ [Fork; Setsid; Fork] ∧ forks w' = []
    ∧ atexit w' = [] ++ [Delpid]
    ∧ (∃ f, fds w' !! 0 = Some f ∧ fds w' !! 1 = Some f ∧ fds w' !! 2 = Some f).
Proof.
  apply (daemonize_detached example.idle (example.world ∅ [StreamHandler 5])
           example.svc_pid 901 902 []).
  - reflexivity.
  - reflexivity.
  - reflexivity.
  - discriminate.
Defined.

(** Round trip through the PID file: a [Daemon] constructed on the path
    after [daemonize] has returned in the detached child caches that
    child's process identifier. *)
Theorem daemonize_then_init (d : Daemon) (w : World) (p : string) (a b : Z)
    (rest : list forked) (tp : bool) :
  forks w = InChild a :: InChild b :: rest →
  pidfile d = Some p → os_path_isabs p = true →
  open_errno w p = None → fs w !! p ≠ Some Dir →
  ∃ w1 d2 w2,
    daemonize d w = Ret tt d w1
    ∧ __init__ (Some p) tp blank w1 = Ret tt d2 w2
    ∧ pid d2 = Some b ∧ pidfile d2 = Some p.
Proof.
  intros Hf Hp Habs Ho Hd.
  destruct (daemonize_writes d w p a b rest Hf Hp Ho Hd) as (t & Hdz).
  assert (Ha : absolute p = p) by (unfold absolute; now rewrite Habs).
  destruct (init_caches p (pretty b +:+ py.nl) b tp
              (with_atexit (λ hs, hs ++ [Delpid])
                 (with_fs (insert p (File (pretty b +:+ py.nl))) (detached b rest t w))))
    as (d2 & w2 & Hi & Hpid & Hpf & _).
  { rewrite Ha. apply lookup_insert_eq. }
  { unfold py.int. rewrite strip_idem, strip_pretty_nl. apply signed_pretty. }
  eexists _, d2, w2. rewrite Ha in Hpf. split; [exact Hdz|]. auto.
Qed.

Lemma daemonize_then_init_witness :
  ∃ w1 d2 w2,
    daemonize example.idle (example.world ∅ [StreamHandler 5]) = Ret tt example.idle w1
    ∧ __init__ (Some example.svc_pid) false blank w1 = Ret tt d2 w2
    ∧ pid d2 = Some 902 ∧ pidfile d2 = Some example.svc_pid.
Proof.
  apply (daemonize_then_init example.idle (example.world ∅ [StreamHandler 5])
           example.svc_pid 901 902 [] false).
  - reflexivity.
  - reflexivity.
  - reflexivity.
  - reflexivity.
  - discriminate.
Defined.

(** [start] in the detached child: the service body runs on the
    environment [daemonize] left, with the PID file written, and [start]
    returns [True] when the body returns.  The body runs inside the [try]
    statement that guards the PID file: an [IOError] it raises comes out as
    [DaemonError] "Cannot write to PID file", any other exception as
    itself. *)
Theorem start_detached_child (d : Daemon) (w : World) (p : string) (a b : Z)
    (rest : list forked) :
  inline d = false → pid d = None →
  forks w = InChild a :: InChild b :: rest →
  pidfile d = Some p → open_errno w p = None → fs w !! p ≠ Some Dir →
  ∃ w1,
    fs w1 = <[p := File (pretty b +:+ py.nl)]> (fs w)
    ∧ atexit w1 = atexit w ++ [Delpid]
    ∧ start d w =
        match _start (exit_event d) d w1 with
        | Ret _ d2 w2 => Ret true d2 w2
        | Raise (IOError n q) d2 w2 =>
            Raise (DaemonError ("Cannot write to PID file: IOError "
                                +:+ quoted (str_exn w2 (IOError n q)))) d2 w2
        | Raise e d2 w2 => Raise e d2 w2
        end.
Proof.
  intros Hi Hn Hf Hp Ho Hd. rewrite (start_daemon_unfold d w p) by assumption.
  set (w0 := logged DEBUG "starting daemon" _).
  destruct (daemonize_writes d w0 p a b rest Hf Hp Ho Hd) as (t & Hdz).
  exists (with_atexit (λ hs, hs ++ [Delpid])
            (with_fs (insert p (File (pretty b +:+ py.nl))) (detached b rest t w0))).
  split; [reflexivity|]. split; [reflexivity|].
  unfold try, bind. rewrite Hdz. unfold get, ret.
  match goal with
  | |- context [_start ?ev ?dd ?ww] => destruct (_start ev dd ww) as [[] d2 w2|e d2 w2]
  end; [reflexivity|].
  destruct e; reflexivity.
Qed.

End Detached.

Section DetachedWitnesses.
Import daemon.

Lemma start_detached_child_witness :
  ∃ w1,
    fs w1 = <[example.svc_pid := File (pretty 902 +:+ py.nl)]> ∅
    ∧ atexit w1 = [] ++ [Delpid]
    ∧ start (C := example.DummyDaemon) example.idle (example.world ∅ []) =
        match _start (Subclass := example.DummyDaemon) (exit_event example.idle)
                example.idle w1 with
        | Ret _ d2 w2 => Ret true d2 w2
        | Raise (IOError n q) d2 w2 =>
            Raise (DaemonError ("Cannot write to PID file: IOError "
                                +:+ quoted (str_exn w2 (IOError n q)))) d2 w2
        | Raise e d2 w2 => Raise e d2 w2
        end.
Proof.
  apply (start_detached_child (C := example.DummyDaemon) example.idle
           (example.world ∅ []) example.svc_pid 901 902 []).
  - reflexivity.
  - reflexivity.
  - reflexivity.
  - reflexivity.
  - reflexivity.
  - discriminate.
Defined.

End DetachedWitnesses.

(** ** The other ends of [daemonize] *)

Section ForkOutcomes.
Import daemon.
Context `{C : Subclass}.

(** The original process, parent of the first fork, with [term_parent]
    set: [start] ends in [SystemExit 0] right after the fork.  Nothing is
    written, the session is not touched and the service body does not
    run here. *)
Theorem start_parent_exits (d : Daemon) (w : World) (p : string) (child : Z)
    (rest : list forked) :
  inline d = false → pidfile d = Some p → pid d = None →
  term_parent d = true → forks w = InParent child :: rest → 0 < child →
  ∃ w', start d w = Raise (SystemExit 0) d w'
        ∧ fs w' = fs w ∧ fds w' = fds w ∧ cwd w' = cwd w ∧ atexit w' = atexit w
        ∧ trace w' = trace w ++ [Fork].
Proof.
  intros Hi Hp Hn Ht Hf Hc. rewrite (start_daemon_unfold d w p) by assumption.
  unfold daemonize, fork_step, os_fork. run. rewrite Hf. run.
  destruct (0 <? child) eqn:E; [|lia]. run. rewrite Ht. run.
  eexists. split; [reflexivity|]. repeat split; reflexivity.
Qed.

(** The original process with [term_parent] unset: [daemonize] returns in
    the parent, and [_start_daemon] goes on to run the service body there
    as well, in the caller's own process, which is not detached and has
    written no PID file.  [start] returns [True] when that body returns. *)
Theorem start_parent_stays (d : Daemon) (w : World) (p : string) (child : Z)
    (rest : list forked) :
  inline d = false → pidfile d = Some p → pid d = None →
  term_parent d = false → forks w = InParent child :: rest → 0 < child →
  ∃ w1,
    fs w1 = fs w ∧ cwd w1 = cwd w ∧ atexit w1 = atexit w
    ∧ trace w1 = trace w ++ [Fork]
    ∧ ∀ d2 w2, _start (exit_event d) d w1 = Ret tt d2 w2 → start d w = Ret true d2 w2.
Proof.
  intros Hi Hp Hn Ht Hf Hc. rewrite (start_daemon_unfold d w p) by assumption.
  unfold daemonize, fork_step, os_fork. run. rewrite Hf. run.
  destruct (0 <? child) eqn:E; [|lia]. run. rewrite Ht. run.
  exists (after_fork (getpid w)
            (logged DEBUG "Attempting first fork ..."
               (logged DEBUG "starting daemon"
                  (logged DEBUG "No PID file -- creating handle"
                     (logged DEBUG "checking daemon status with PID: None" w))))).
  split; [reflexivity|]. split; [reflexivity|]. split; [reflexivity|].
  split; [reflexivity|]. intros d2 w2 Hb. rewrite Hb. reflexivity.
Qed.

(** A first fork that fails: the error number and its text go to the
    standard error stream and [start] ends in [SystemExit 1]; nothing else
    has happened. *)
Theorem start_fork_fails (d : Daemon) (w : World) (p : string) (errno : Z)
    (rest : list forked) :
  inline d = false → pidfile d = Some p → pid d = None →
  forks w = ForkFails errno :: rest →
  ∃ w', start d w = Raise (SystemExit 1) d w'
        ∧ stderr w' = stderr w ++ ["Fork #1 failed: " +:+ pretty errno +:+ " ("
                                   +:+ strerror w errno +:+ ")" +:+ py.nl]
        ∧ fs w' = fs w ∧ fds w' = fds w ∧ cwd w' = cwd w ∧ atexit w' = atexit w.
Proof.
  intros Hi Hp Hn Hf. rewrite (start_daemon_unfold d w p) by assumption.
  unfold daemonize, fork_step, os_fork. run. rewrite Hf. run.
  eexists. split; [reflexivity|]. repeat split; reflexivity.
Qed.

(** The first child, parent of the second fork, with [term_parent] set:
    it has become session leader in the root directory with mask 0, and
    ends in [SystemExit 0] without writing the PID file or running the
    body. *)
Theorem start_first_child_exits (d : Daemon) (w : World) (p : string) (a child : Z)
    (rest : list forked) :
  inline d = false → pidfile d = Some p → pid d = None →
  term_parent d = true → forks w = InChild a :: InParent child :: rest → 0 < child →
  ∃ w', start d w = Raise (SystemExit 0) d w'
        ∧ fs w' = fs w ∧ fds w' = fds w ∧ atexit w' = atexit w
        ∧ cwd w' = "/" ∧ umask w' = 0 ∧ getpid w' = a
        ∧ trace w' = trace w ++ [Fork; Setsid; Fork].
Proof.
  intros Hi Hp Hn Ht Hf Hc. rewrite (start_daemon_unfold d w p) by assumption.
  unfold daemonize, fork_step, os_fork. run. rewrite Hf. run. rewrite Hf. run.
  destruct (0 <? child) eqn:E; [|lia]. run. rewrite Ht. run.
  eexists. split; [reflexivity|]. repeat split; try reflexivity.
  cbn. rewrite <- !app_assoc. reflexivity.
Qed.

(** A PID file that cannot be opened for writing: in the detached child
    [start] raises [DaemonError] "Cannot write to PID file".  That comes
    after the detachment, so the original caller never sees it; the
    service body has not run, no file was written and no exit hook was
    registered. *)
Theorem start_pid_file_unwritable (d : Daemon) (w : World) (p : string) (a b errno : Z)
    (rest : list forked) :
  inline d = false → pidfile d = Some p → pid d = None →
  forks w = InChild a :: InChild b :: rest → open_errno w p = Some errno →
  ∃ w',
    start d w =
      Raise (DaemonError ("Cannot write to PID file: IOError "
                          +:+ quoted (str_exn w (IOError errno p)))) d w'
    ∧ fs w' = fs w ∧ atexit w' = atexit w
    ∧ trace w' = trace w ++ [Fork; Setsid; Fork].
Proof.
  intros Hi Hp Hn Hf Ho. rewrite (start_daemon_unfold d w p) by assumption.
  set (w0 := logged DEBUG "starting daemon" _).
  destruct (daemonize_child d w0 a b rest Hf) as (t & f & _ & _ & _ & Hdz).
  rewrite Hp in Hdz. unfold file_write in Hdz. revert Hdz. run. rewrite Ho. run.
  intros Hdz. unfold try, bind. rewrite Hdz. run.
  eexists. split; [reflexivity|]. repeat split; reflexivity.
Qed.

End ForkOutcomes.

Section ForkOutcomesWitnesses.
Import daemon.

Lemma start_parent_exits_witness :
  ∃ w', start (C := example.DummyDaemon) example.idle
          (with_forks [InParent 901] (example.world ∅ [])) =
          Raise (SystemExit 0) example.idle w'
        ∧ fs w' = fs (with_forks [InParent 901] (example.world ∅ []))
        ∧ fds w' = fds (with_forks [InParent 901] (example.world ∅ []))
        ∧ cwd w' = cwd (with_forks [InParent 901] (example.world ∅ []))
        ∧ atexit w' = atexit (with_forks [InParent 901] (example.world ∅ []))
        ∧ trace w' = trace (with_forks [InParent 901] (example.world ∅ [])) ++ [Fork].
Proof.
  apply (start_parent_exits (C := example.DummyDaemon) example.idle
           (with_forks [InParent 901] (example.world ∅ [])) example.svc_pid 901 []);
    reflexivity.
Defined.

Lemma start_parent_stays_witness :
  ∃ d2 w2,
    start (C := example.DummyDaemon) (set_term_parent false example.idle)
      (with_forks [InParent 901] (example.world ∅ [])) = Ret true d2 w2
    ∧ fs w2 = ∅ ∧ exit_event d2 = true.
Proof.
  destruct (start_parent_stays (C := example.DummyDaemon)
              (set_term_parent false example.idle)
              (with_forks [InParent 901] (example.world ∅ [])) example.svc_pid 901 []
              eq_refl eq_refl eq_refl eq_refl eq_refl eq_refl)
    as (w1 & Hfs & _ & _ & _ & Hrun).
  eexists _, _. split; [apply Hrun; reflexivity|]. split; [exact Hfs|reflexivity].
Defined.

Lemma start_fork_fails_witness :
  ∃ w', start (C := example.DummyDaemon) example.idle
          (with_forks [ForkFails 12] (example.world ∅ [])) =
          Raise (SystemExit 1) example.idle w'
        ∧ stderr w' = [] ++ ["Fork #1 failed: " +:+ pretty 12 +:+ " ("
                             +:+ "Operation not permitted" +:+ ")" +:+ py.nl]
        ∧ fs w' = ∅ ∧ fds w' = fds (example.world ∅ []) ∧ cwd w' = "/home/svc"
        ∧ atexit w' = [].
Proof.
  apply (start_fork_fails (C := example.DummyDaemon) example.idle
           (with_forks [ForkFails 12] (example.world ∅ [])) example.svc_pid 12 []);
    reflexivity.
Defined.

Lemma start_first_child_exits_witness :
  ∃ w', start (C := example.DummyDaemon) example.idle
          (with_forks [InChild 901; InParent 902] (example.world ∅ [])) =
          Raise (SystemExit 0) example.idle w'
        ∧ fs w' = ∅ ∧ fds w' = fds (example.world ∅ []) ∧ atexit w' = []
        ∧ cwd w' = "/" ∧ umask w' = 0 ∧ getpid w' = 901
        ∧ trace w' = [] ++ [Fork; Setsid; Fork].
Proof.
  apply (start_first_child_exits (C := example.DummyDaemon) example.idle
           (with_forks [InChild 901; InParent 902] (example.world ∅ []))
           example.svc_pid 901 902 []); reflexivity.
Defined.

Lemma start_pid_file_unwritable_witness :
  ∃ w',
    start (C := example.DummyDaemon) example.idle
      (with_open_errno (λ _, Some 13) (example.world ∅ [])) =
      Raise (DaemonError ("Cannot write to PID file: IOError "
                          +:+ quoted (str_exn (with_open_errno (λ _, Some 13)
                                                 (example.world ∅ []))
                                        (IOError 13 example.svc_pid))))
        example.idle w'
    ∧ fs w' = ∅ ∧ atexit w' = []
    ∧ trace w' = [] ++ [Fork; Setsid; Fork].
Proof.
  apply (start_pid_file_unwritable (C := example.DummyDaemon) example.idle
           (with_open_errno (λ _, Some 13) (example.world ∅ []))
           example.svc_pid 901 902 13 []); reflexivity.
Defined.

End ForkOutcomesWitnesses.

(** ** The exit hook *)

Section ExitHook.
Import daemon.

(** [_delpid], the hook [daemonize] registers, run by the daemon at its
    exit: the PID file written by [daemonize] is gone afterwards and the
    rest of the file system is as [daemonize] found it. *)
Theorem daemonize_then_delpid (d : Daemon) (w : World) (p : string) (a b : Z)
    (rest : list forked) :
  forks w = InChild a :: InChild b :: rest →
  pidfile d = Some p → open_errno w p = None → fs w !! p = None →
  ∃ w1 w2,
    daemonize d w = Ret tt d w1
    ∧ atexit w1 = atexit w ++ [Delpid]
    ∧ _delpid d w1 = Ret tt d w2
    ∧ fs w2 = fs w.
Proof.
  intros Hf Hp Ho Hn.
  destruct (daemonize_writes d w p a b rest Hf Hp Ho) as (t & Hdz).
  { rewrite Hn. discriminate. }
  eexists _, _. split; [exact Hdz|]. split; [reflexivity|].
  unfold _delpid, os_remove. run. rewrite Hp. run. rewrite lookup_insert_eq. run.
  split; [reflexivity|]. cbn. rewrite delete_insert_eq. now apply delete_id.
Qed.

Lemma daemonize_then_delpid_witness :
  ∃ w1 w2,
    daemonize example.idle (example.world ∅ []) = Ret tt example.idle w1
    ∧ atexit w1 = [] ++ [Delpid]
    ∧ _delpid example.idle w1 = Ret tt example.idle w2
    ∧ fs w2 = ∅.
Proof.
  apply (daemonize_then_delpid example.idle (example.world ∅ []) example.svc_pid
           901 902 []); reflexivity.
Defined.

(** [_delpid] when the PID file is no longer there, as after a [stop]
    from another process that met "no such process": [os.remove] fails
    and the hook raises [OSError] "no such file". *)
Theorem delpid_without_file (d : Daemon) (w : World) (p : string) :
  pidfile d = Some p → fs w !! p = None →
  _delpid d w = Raise (OSError ENOENT) d
                  (logged DEBUG ("Removing PID file at " +:+ quoted p) w).
Proof.
  intros Hp Hn. unfold _delpid, os_remove. run. rewrite Hp. run. now rewrite Hn.
Qed.

Lemma delpid_without_file_witness :
  _delpid example.idle (example.world ∅ []) =
    Raise (OSError ENOENT) example.idle
      (logged DEBUG ("Removing PID file at " +:+ quoted example.svc_pid)
         (example.world ∅ [])).
Proof.
  apply (delpid_without_file example.idle (example.world ∅ []) example.svc_pid);
    reflexivity.
Defined.

End ExitHook.

(** * Further properties of [daemoniser.service] *)

Section MoreController.
Import service.

(** The logger calls [check_args] makes before it looks at the command. *)
Lemma check_args_console (options : Options) (s : Service) (w : World) :
  (if bool_decide (dry options ≠ None) then set_console else ret tt) s w =
  Ret tt s (if bool_decide (dry options ≠ None) then traced SetConsole w else w).
Proof. destruct (bool_decide (dry options ≠ None)); reflexivity. Qed.

(** Which command lines [check_args] accepts when no command is
    predefined: it returns exactly when the positional arguments are one
    supported command, and that command is [start] or neither [-d] nor
    [-b] is given.  Every other command line ends the process. *)
Theorem check_args_accepts_iff
    (options : Options) (args : list string) (script_name : string)
    (s : Service) (w : World) :
  (∃ s' w', check_args options args script_name None s w = Ret tt s' w')
  ↔ ∃ cmd, args = [cmd] ∧ cmd ∈ _supported_commands s
           ∧ (cmd = "start" ∨ py.flag (dry options) || py.flag (batch options) = false).
Proof.
  unfold check_args. unfold bind at 1 2. rewrite check_args_console.
  unfold command_from_args.
  destruct args as [|cmd [|a args]].
  - split; [intros (s' & w' & H); discriminate H|intros (c0 & H & _); discriminate H].
  - unfold bind at 1 2 3, get at 1.
    destruct (bool_decide (cmd ∈ _supported_commands s)) eqn:Hs.
    + apply bool_decide_eq_true in Hs. unfold ret at 1. unfold bind at 1.
      destruct (String.eqb cmd "start") eqn:He.
      * apply String.eqb_eq in He. subst cmd. split.
        -- intros _. exists "start". auto.
        -- intros _. cbn [negb andb]. run.
           destruct (verbose options =? 0); run; eauto.
      * apply String.eqb_neq in He. cbn [negb andb].
        destruct (py.flag (dry options) || py.flag (batch options)) eqn:Hf.
        -- split; [intros (s' & w' & H); discriminate H|].
           intros (c & Hc & _ & [Hst|Hfl]); [|discriminate Hfl].
           injection Hc as <-. contradiction.
        -- split; [intros _; exists cmd; auto|]. intros _. run.
           destruct (String.eqb cmd "status"); run;
             destruct (verbose options =? 0); run;
             destruct (String.eqb cmd "start"); run; eauto.
    + apply bool_decide_eq_false in Hs.
      split; [intros (s' & w' & H); discriminate H|].
      intros (c & Hc & Hin & _). injection Hc as <-. contradiction.
  - split; [intros (s' & w' & H); discriminate H|intros (c0 & H & _); discriminate H].
Qed.

(** A command line that is not one supported command is refused before
    the modifiers are looked at: a wrong number of positional arguments
    first, an unsupported name next, each with its own message, exit
    status 2 and no attribute of the controller set. *)
Theorem check_args_rejects_bad_command
    (options : Options) (args : list string) (script_name : string)
    (s : Service) (w : World) :
  (∀ cmd, args = [cmd] → cmd ∉ _supported_commands s) →
  check_args options args script_name None s w =
    Raise (SystemExit 2) s
      (usage_error
         (match args with
          | [cmd] => "command " +:+ quoted cmd +:+ " not supported"
          | _ => "incorrect number of arguments"
          end)
         (if bool_decide (dry options ≠ None) then traced SetConsole w else w)).
Proof.
  intros Hbad. unfold check_args. unfold bind at 1 2. rewrite check_args_console.
  unfold command_from_args.
  destruct args as [|cmd [|a args]]; [reflexivity| |reflexivity].
  unfold bind at 1 2 3, get at 1.
  rewrite bool_decide_eq_false_2 by (now apply Hbad). reflexivity.
Qed.

Lemma check_args_rejects_bad_command_witness :
  check_args dry_run ["restart"] "svc" None blank (example.world ∅ []) =
    Raise (SystemExit 2) blank
      (usage_error
         ("command " +:+ quoted "restart" +:+ " not supported")
         (if bool_decide (dry dry_run ≠ None)
          then traced SetConsole (example.world ∅ []) else example.world ∅ [])).
Proof.
  apply (check_args_rejects_bad_command dry_run ["restart"] "svc" blank
           (example.world ∅ [])).
  intros cmd Hc. injection Hc as <-. vm_compute. intros H.
  repeat (apply elem_of_cons in H as [H|H]; [discriminate H|]).
  now apply elem_of_nil in H.
Defined.

(** A predefined command is taken as it is: [check_args] then always
    returns, whatever the command line holds, without checking the command
    against the supported ones or the modifiers against the command; the
    positional arguments are kept whole and nothing goes to the standard
    error stream. *)
Theorem check_args_predefined_returns
    (options : Options) (args : list string) (script_name cmd : string)
    (s : Service) (w : World) :
  ∃ s' w',
    check_args options args script_name (Some cmd) s w = Ret tt s' w'
    ∧ _command s' = Some cmd ∧ _args s' = args
    ∧ _script_name s' = Some script_name ∧ _options s' = Some options
    ∧ stderr w' = stderr w.
Proof.
  unfold check_args. unfold bind at 1 2. rewrite check_args_console. run.
  destruct (bool_decide (dry options ≠ None)); destruct (String.eqb cmd "status"); run;
    destruct (verbose options =? 0); run;
    destruct (String.eqb cmd "start"); run;
    eexists _, _; (split; [reflexivity|]); repeat split; reflexivity.
Qed.

(** What an accepted call leaves in the controller: the command (the
    predefined one, or the one popped off the positional arguments, which
    are then empty), the script name and the options; the configuration,
    the PID file and the supported commands as before.  The dry-run and
    batch attributes are set from the options for [start] only, and keep
    their earlier values for every other command. *)
Theorem check_args_accepted_state
    (options : Options) (args : list string) (script_name : string)
    (command : option string) (s s' : Service) (w w' : World) :
  check_args options args script_name command s w = Ret tt s' w' →
  ∃ cmd,
    _command s' = Some cmd
    ∧ match command with
      | Some c => cmd = c ∧ _args s' = args
      | None => args = [cmd] ∧ _args s' = []
      end
    ∧ _script_name s' = Some script_name ∧ _options s' = Some options
    ∧ _config s' = _config s ∧ _pidfile s' = _pidfile s
    ∧ _supported_commands s' = _supported_commands s
    ∧ (if String.eqb cmd "start"
       then _dry s' = bool_decide (dry options ≠ None)
            ∧ _batch s' = bool_decide (batch options ≠ None)
       else _dry s' = _dry s ∧ _batch s' = _batch s).
Proof.
  unfold check_args. unfold bind at 1 2. rewrite check_args_console.
  destruct command as [c|].
  - run. destruct (String.eqb c "status"); run;
      destruct (verbose options =? 0); run;
      destruct (String.eqb c "start") eqn:Hst; run;
      intros H; injection H as <- <-; exists c; rewrite ?Hst; repeat split; reflexivity.
  - unfold command_from_args.
    destruct args as [|cmd [|a args]]; [discriminate| |discriminate].
    unfold bind at 1 2 3, get at 1.
    destruct (bool_decide (cmd ∈ _supported_commands s)); [|discriminate].
    unfold ret at 1. unfold bind at 1.
    destruct (negb (String.eqb cmd "start")
              && (py.flag (dry options) || py.flag (batch options))); [discriminate|].
    run. destruct (String.eqb cmd "status"); run;
      destruct (verbose options =? 0); run;
      destruct (String.eqb cmd "start") eqn:Hst; run;
      intros H; injection H as <- <-; exists cmd; rewrite ?Hst; repeat split; reflexivity.
Qed.

Lemma check_args_accepted_state_witness :
  ∃ s' w',
    check_args dry_run ["start"] "svc" None blank (example.world ∅ []) = Ret tt s' w'
    ∧ ∃ cmd,
        _command s' = Some cmd
        ∧ (["start"] = [cmd] ∧ _args s' = [])
        ∧ _script_name s' = Some "svc" ∧ _options s' = Some dry_run
        ∧ _config s' = _config blank ∧ _pidfile s' = _pidfile blank
        ∧ _supported_commands s' = _supported_commands blank
        ∧ (if String.eqb cmd "start"
           then _dry s' = bool_decide (dry dry_run ≠ None)
                ∧ _batch s' = bool_decide (batch dry_run ≠ None)
           else _dry s' = _dry blank ∧ _batch s' = _batch blank).
Proof.
  eassert (H : check_args dry_run ["start"] "svc" None blank (example.world ∅ [])
               = Ret tt _ _) by (vm_compute; reflexivity).
  eexists _, _. split; [exact H|].
  exact (check_args_accepted_state _ _ _ _ _ _ _ _ H).
Defined.

End MoreController.

(** ** The PID file of the controller *)

Section ControllerPidfile.
Import service controller.

Lemma append_assoc (a b c : string) : (a +:+ b) +:+ c = a +:+ (b +:+ c).
Proof.
  induction a as [|x a IH]; [reflexivity|].
  change (String x ((a +:+ b) +:+ c) = String x (a +:+ (b +:+ c))). now rewrite IH.
Qed.

Lemma nonempty_append (a b : string) : nonempty b = true → nonempty (a +:+ b) = true.
Proof. destruct a; [auto|reflexivity]. Qed.

Lemma ends_with_slash_append (a : string) (c : ascii) (b : string) :
  ends_with_slash (a +:+ String c b) = ends_with_slash (String c b).
Proof.
  induction a as [|x a IH]; [reflexivity|].
  change (String x a +:+ String c b) with (String x (a +:+ String c b)).
  cbn [ends_with_slash]. destruct (a +:+ String c b) eqn:E; [|exact IH].
  destruct a; discriminate E.
Qed.

(** The default PID file is made once: the first read of [pidfile] with a
    script name and no PID file set joins the home directory, [.pids] and
    the script name with [.pid], and stores the result, so that a later
    change of the script name no longer changes the PID file.  A PID file
    that was set is returned as it is. *)
Theorem pidfile_default_is_kept (home name : string) (s : Service) (w : World) :
  _pidfile s = None → _script_name s = Some name →
  ∃ s',
    pidfile home s w = Ret (Some (os_path_join home [".pids"; name +:+ ".pid"])) s' w
    ∧ _pidfile s' = Some (os_path_join home [".pids"; name +:+ ".pid"])
    ∧ ∀ other w2,
        pidfile home (set_script_name other s') w2 =
          Ret (Some (os_path_join home [".pids"; name +:+ ".pid"]))
            (set_script_name other s') w2.
Proof.
  intros Hp Hn. unfold pidfile. run. rewrite Hp, Hn. run.
  eexists. split; [reflexivity|]. split; [reflexivity|]. reflexivity.
Qed.

Lemma pidfile_default_is_kept_witness :
  ∃ s',
    pidfile "/home/svc" (set_script_name (Some "svc") blank) (example.world ∅ []) =
      Ret (Some (os_path_join "/home/svc" [".pids"; "svc" +:+ ".pid"])) s'
        (example.world ∅ [])
    ∧ _pidfile s' = Some (os_path_join "/home/svc" [".pids"; "svc" +:+ ".pid"])
    ∧ ∀ other w2,
        pidfile "/home/svc" (set_script_name other s') w2 =
          Ret (Some (os_path_join "/home/svc" [".pids"; "svc" +:+ ".pid"]))
            (set_script_name other s') w2.
Proof.
  apply (pidfile_default_is_kept "/home/svc" "svc" (set_script_name (Some "svc") blank)
           (example.world ∅ [])); reflexivity.
Defined.

(** No script name and no PID file: the property is [None]. *)
Lemma pidfile_unset (home : string) (s : Service) (w : World) :
  _pidfile s = None → _script_name s = None → pidfile home s w = Ret None s w.
Proof. intros Hp Hn. unfold pidfile. run. rewrite Hp, Hn. run. now rewrite Hp. Qed.

(** Where the default PID file lies.  For a script name that is not an
    absolute path and a home directory without a slash at its end it is
    [<home>/.pids/<name>.pid]; a script name that starts with a slash
    makes [os.path.join] start over, and the PID file is [<name>.pid],
    beside the script and not under the home directory. *)
Theorem default_pidfile_path (home name : string) :
  os_path_join home [".pids"; name +:+ ".pid"] =
    if os_path_isabs name then name +:+ ".pid"
    else if negb (nonempty home) then ".pids/" +:+ name +:+ ".pid"
    else if ends_with_slash home then home +:+ ".pids/" +:+ name +:+ ".pid"
    else home +:+ "/.pids/" +:+ name +:+ ".pid".
Proof.
  cbn [os_path_join].
  assert (Hn : os_path_isabs (name +:+ ".pid") = os_path_isabs name).
  { destruct name; reflexivity. }
  rewrite Hn. change (os_path_isabs ".pids") with false. cbn iota.
  destruct (os_path_isabs name); [reflexivity|].
  destruct (nonempty home) eqn:Hh; cbn [negb orb].
  - destruct (ends_with_slash home) eqn:He.
    + rewrite nonempty_append by reflexivity. cbn [negb orb].
      rewrite ends_with_slash_append. change (ends_with_slash ".pids") with false.
      cbn iota. rewrite !append_assoc. reflexivity.
    + rewrite nonempty_append by reflexivity. cbn [negb orb].
      change (home +:+ "/" +:+ ".pids") with (home +:+ "/.pids").
      rewrite ends_with_slash_append. change (ends_with_slash "/.pids") with false.
      cbn iota. rewrite !append_assoc. reflexivity.
  - destruct home; [|discriminate]. reflexivity.
Qed.

End ControllerPidfile.

(** ** [launch_command] *)

Section Launching.
Import service controller.
Context `{C : daemon.Subclass}.

(** A command that is none of [start], [stop] and [status], [None]
    included, is answered with one printed line; the daemon object and the
    environment are not touched. *)
Theorem launch_unknown_command (s : Service) (name : string) (inline : bool)
    (c : Console) (w : World) :
  _command s ≠ Some "start" → _command s ≠ Some "stop" → _command s ≠ Some "status" →
  launch_command s name inline c w =
    Ret tt {| obj := obj c;
              stdout := stdout c ++ ["Do not know command "
                                     +:+ quoted (default "None" (_command s))] |} w.
Proof.
  intros H1 H2 H3. unfold launch_command.
  rewrite !bool_decide_eq_false_2 by assumption.
  destruct (_command s); reflexivity.
Qed.

(** [status], when the cached PID, if there is one, fits a C [int]: one
    line is printed and nothing else changes but the probe.  The line
    names the cached PID when a PID is cached and the probe was delivered,
    and says idle otherwise, also when the probe was refused for lack of
    permission. *)
Theorem launch_status (s : Service) (name : string) (inline : bool)
    (c : Console) (w : World) :
  _command s = Some "status" →
  (∀ n, daemon.pid (obj c) = Some n → c_int n = true) →
  ∃ w',
    launch_command s name inline c w =
      Ret tt {| obj := obj c;
                stdout := stdout c ++
                  [match daemon.pid (obj c) with
                   | Some n =>
                       if bool_decide (kill_errno w n 0 = None)
                       then name +:+ " is running with PID " +:+ pretty n
                       else name +:+ " is idle"
                   | None => name +:+ " is idle"
                   end] |} w'
    ∧ fs w' = fs w ∧ logs w' = logs w
    ∧ trace w' = trace w ++ match daemon.pid (obj c) with
                            | Some n => [Kill n 0]
                            | None => []
                            end.
Proof.
  intros Hc Hr. unfold launch_command. rewrite Hc.
  rewrite bool_decide_eq_false_2 by discriminate.
  rewrite bool_decide_eq_false_2 by discriminate.
  rewrite bool_decide_eq_true_2 by reflexivity.
  unfold bind at 1, on_obj.
  destruct (daemon.pid (obj c)) as [n|] eqn:Hn.
  - rewrite (status_probes (obj c) w n Hn (Hr n eq_refl)).
    destruct (bool_decide (kill_errno w n 0 = None)).
    + unfold bind, get. cbn [obj stdout]. rewrite Hn. eexists. split; [reflexivity|].
      repeat split; reflexivity.
    + eexists. split; [reflexivity|]. repeat split; reflexivity.
  - rewrite (status_idle (obj c) w Hn). exists w. split; [reflexivity|].
    repeat split; try reflexivity. now rewrite app_nil_r.
Qed.

(** [start] under dry-run or with [inline] given: the daemon object is put
    in inline mode first, so the service body runs in this process and
    nothing is forked; one line is printed before, and "Start aborted"
    never is. *)
Lemma launch_start_inline (s : Service) (name : string) (inline : bool)
    (c : Console) (w : World) :
  _command s = Some "start" → _dry s || inline = true →
  launch_command s name inline c w =
    match daemon._start (daemon.exit_event (obj c)) (daemon.set_inline true (obj c)) w with
    | Ret _ d' w' =>
        Ret tt {| obj := d';
                  stdout := stdout c ++
                    [(if _batch s then ("Starting " +:+ name +:+ " inline") +:+ " (batch mode)"
                      else "Starting " +:+ name +:+ " inline") +:+ " ..."] |} w'
    | Raise e d' w' =>
        Raise e {| obj := d';
                   stdout := stdout c ++
                     [(if _batch s then ("Starting " +:+ name +:+ " inline") +:+ " (batch mode)"
                       else "Starting " +:+ name +:+ " inline") +:+ " ..."] |} w'
    end.
Proof.
  intros Hc Hd. unfold launch_command. rewrite Hc.
  rewrite bool_decide_eq_true_2 by reflexivity. rewrite Hd.
  unfold bind, get, put, ret, print, on_obj. cbn [obj stdout].
  rewrite start_inline by reflexivity.
  cbn [daemon.exit_event daemon.set_inline].
  destruct (daemon._start _ _ _) as [[] d' w'|e d' w']; cbn [obj stdout negb];
    destruct (_batch s); reflexivity.
Qed.

(** [start] in daemon mode with a PID cached: refused, with two log lines. *)
Lemma start_refused (d : daemon.Daemon) (w : World) (p : string) (n : Z) :
  daemon.inline d = false → daemon.pidfile d = Some p → daemon.pid d = Some n →
  daemon.start d w =
    Ret false d
      (logged WARNING ("PID file " +:+ quoted p
                       +:+ " exists.  Daemon may be running?" +:+ py.nl)
         (logged DEBUG ("checking daemon status with PID: " +:+ pretty n) w)).
Proof.
  intros Hi Hp Hn. unfold daemon.start, daemon._start_daemon. run.
  rewrite Hi, Hp, Hn. run. reflexivity.
Qed.

(** [start] refused by the daemon: with a PID cached in a daemon-mode
    object and neither dry-run nor [inline], the announcement is followed
    by "Start aborted"; the object is as before and nothing was forked. *)
Theorem launch_start_refused (s : Service) (name : string) (c : Console) (w : World)
    (p : string) (n : Z) :
  _command s = Some "start" → _dry s = false →
  daemon.inline (obj c) = false → daemon.pidfile (obj c) = Some p →
  daemon.pid (obj c) = Some n →
  ∃ w',
    launch_command s name false c w =
      Ret tt {| obj := obj c;
                stdout := stdout c ++
                  [(if _batch s then ("Starting " +:+ name +:+ " as daemon") +:+ " (batch mode)"
                    else "Starting " +:+ name +:+ " as daemon") +:+ " ...";
                   "Start aborted"] |} w'
    ∧ forks w' = forks w ∧ trace w' = trace w ∧ fs w' = fs w.
Proof.
  intros Hc Hd Hi Hp Hn. unfold launch_command. rewrite Hc.
  rewrite bool_decide_eq_true_2 by reflexivity. rewrite Hd.
  unfold bind, get, put, ret, print, on_obj. cbn [obj stdout orb].
  rewrite (start_refused (obj c) w p n Hi Hp Hn). cbn [obj stdout negb].
  eexists. split.
  - destruct (_batch s); rewrite <- app_assoc; reflexivity.
  - repeat split; reflexivity.
Qed.

(** [status] and [stop] with a cached PID that does not fit a C [int]:
    the [OverflowError] of [os.kill] is raised out of [launch_command];
    [status] has printed nothing, [stop] its announcement only. *)
Lemma launch_overflow (s : Service) (name : string) (inline : bool)
    (c : Console) (w : World) (n : Z) :
  daemon.pid (obj c) = Some n → c_int n = false →
  (_command s = Some "status" →
   launch_command s name inline c w = Raise (Uncaught "OverflowError") c w)
  ∧ (_command s = Some "stop" →
     ∃ w', launch_command s name inline c w =
             Raise (Uncaught "OverflowError")
               {| obj := obj c; stdout := stdout c ++ ["Stopping " +:+ name +:+ " ..."] |} w'
           ∧ trace w' = trace w).
Proof.
  intros Hn Hr. split; intros Hc; unfold launch_command; rewrite Hc.
  - rewrite bool_decide_eq_false_2 by discriminate.
    rewrite bool_decide_eq_false_2 by discriminate.
    rewrite bool_decide_eq_true_2 by reflexivity.
    unfold bind at 1, on_obj. rewrite (status_overflow (obj c) w n Hn Hr).
    destruct c; reflexivity.
  - rewrite bool_decide_eq_false_2 by discriminate.
    rewrite bool_decide_eq_true_2 by reflexivity.
    unfold bind, print, on_obj. cbn [obj stdout].
    rewrite (stop_overflow (obj c) w n Hn Hr). cbn [obj stdout].
    eexists. split; reflexivity.
Qed.

(** [stop], for a cached PID that is not 0 and fits a C [int]: the
    announcement is followed by "OK" exactly when the signal was
    delivered, and the cached PID is then cleared; otherwise by "Stop
    aborted", with the PID still cached. *)
Theorem launch_stop (s : Service) (name : string) (inline : bool) (c : Console)
    (w : World) (n : Z) :
  _command s = Some "stop" → daemon.pid (obj c) = Some n → n ≠ 0 → c_int n = true →
  ∃ d' w',
    launch_command s name inline c w =
      Ret tt {| obj := d';
                stdout := stdout c ++
                  ["Stopping " +:+ name +:+ " ...";
                   if bool_decide (kill_errno w n SIGTERM = None) then "OK"
                   else "Stop aborted"] |} w'
    ∧ daemon.pid d' = (if bool_decide (kill_errno w n SIGTERM = None) then None
                       else Some n)
    ∧ trace w' = trace w ++ [Kill n SIGTERM].
Proof.
  intros Hc Hn Hz Hr. unfold launch_command. rewrite Hc.
  rewrite bool_decide_eq_false_2 by discriminate.
  rewrite bool_decide_eq_true_2 by reflexivity.
  unfold bind, print, on_obj. cbn [obj stdout].
  destruct (kill_errno w n SIGTERM) as [errno|] eqn:Hk.
  - rewrite (stop_not_delivered (obj c) w n errno Hn Hz Hr Hk). cbn [obj stdout].
    rewrite bool_decide_eq_false_2 by discriminate.
    eexists _, _. split; [rewrite <- app_assoc; reflexivity|]. split; [exact Hn|].
    unfold stop_failed. destruct (errno =? 3); [destruct (daemon.pidfile (obj c))|];
      reflexivity.
  - rewrite (stop_delivered (obj c) w n Hn Hz Hr Hk). cbn [obj stdout].
    rewrite bool_decide_eq_true_2 by reflexivity.
    eexists _, _. split; [rewrite <- app_assoc; reflexivity|]. split; reflexivity.
Qed.

(** From the command line to the body: the command line [-d start], with
    [start] supported, is accepted by [check_args] and the [launch_command]
    that follows runs the service body in the calling process, in inline
    mode; the outcome is the body's and nothing is forked by the
    framework. *)
Theorem dry_start_runs_inline (options : Options) (name : string) (s : Service)
    (c : Console) (w : World) :
  dry options ≠ None → "start" ∈ _supported_commands s →
  ∃ s' w1,
    check_args options ["start"] name None s w = Ret tt s' w1
    ∧ forks w1 = forks w ∧ fs w1 = fs w
    ∧ launch_command s' name false c w1 =
        match daemon._start (daemon.exit_event (obj c))
                (daemon.set_inline true (obj c)) w1 with
        | Ret _ d' w' =>
            Ret tt {| obj := d';
                      stdout := stdout c ++
                        [(if bool_decide (batch options ≠ None)
                          then ("Starting " +:+ name +:+ " inline") +:+ " (batch mode)"
                          else "Starting " +:+ name +:+ " inline") +:+ " ..."] |} w'
        | Raise e d' w' =>
            Raise e {| obj := d';
                       stdout := stdout c ++
                         [(if bool_decide (batch options ≠ None)
                           then ("Starting " +:+ name +:+ " inline") +:+ " (batch mode)"
                           else "Starting " +:+ name +:+ " inline") +:+ " ..."] |} w'
        end.
Proof.
  intros Hd Hs. unfold check_args. unfold bind at 1 2. rewrite check_args_console.
  unfold command_from_args. unfold bind at 1 2 3, get at 1.
  rewrite (bool_decide_eq_true_2 _ Hs). rewrite (bool_decide_eq_true_2 _ Hd).
  run. destruct (verbose options =? 0); run.
  all: eexists _, _; split; [reflexivity|]; split; [reflexivity|]; split; [reflexivity|].
  all: rewrite launch_start_inline by reflexivity; reflexivity.
Qed.

End Launching.

Section LaunchingWitnesses.
Import service controller.

Lemma launch_unknown_command_witness :
  launch_command (C := example.DummyDaemon) (example_commanded (Some "restart")) "svc" false
    {| obj := example.idle; stdout := [] |} (example.world ∅ []) =
    Ret tt {| obj := example.idle;
              stdout := [] ++ ["Do not know command "
                               +:+ quoted (default "None" (Some "restart"))] |}
      (example.world ∅ []).
Proof.
  apply (launch_unknown_command (C := example.DummyDaemon) (example_commanded (Some "restart"))
           "svc" false {| obj := example.idle; stdout := [] |} (example.world ∅ []));
    discriminate.
Defined.

Lemma launch_status_witness :
  ∃ w',
    launch_command (C := example.DummyDaemon) (example_commanded (Some "status")) "svc" false
      {| obj := example.stale; stdout := [] |} example.stale_world =
      Ret tt {| obj := example.stale; stdout := [] ++ ["svc" +:+ " is idle"] |} w'
    ∧ fs w' = fs example.stale_world ∧ logs w' = logs example.stale_world
    ∧ trace w' = trace example.stale_world ++ [Kill 4242 0].
Proof.
  apply (launch_status (C := example.DummyDaemon) (example_commanded (Some "status")) "svc" false
           {| obj := example.stale; stdout := [] |} example.stale_world).
  - reflexivity.
  - intros n Hn. injection Hn as <-. reflexivity.
Defined.

Lemma launch_start_refused_witness :
  ∃ w',
    launch_command (C := example.DummyDaemon) (example_commanded (Some "start")) "svc" false
      {| obj := example.stale; stdout := [] |} example.stale_world =
      Ret tt {| obj := example.stale;
                stdout := [] ++ [("Starting " +:+ "svc" +:+ " as daemon") +:+ " ...";
                                 "Start aborted"] |} w'
    ∧ forks w' = forks example.stale_world ∧ trace w' = trace example.stale_world
    ∧ fs w' = fs example.stale_world.
Proof.
  apply (launch_start_refused (C := example.DummyDaemon) (example_commanded (Some "start")) "svc"
           {| obj := example.stale; stdout := [] |} example.stale_world
           example.svc_pid 4242); reflexivity.
Defined.

Lemma launch_stop_witness :
  ∃ d' w',
    launch_command (C := example.DummyDaemon) (example_commanded (Some "stop")) "svc" false
      {| obj := example.stale; stdout := [] |} example.stale_world =
      Ret tt {| obj := d';
                stdout := [] ++ ["Stopping " +:+ "svc" +:+ " ..."; "Stop aborted"] |} w'
    ∧ daemon.pid d' = Some 4242
    ∧ trace w' = trace example.stale_world ++ [Kill 4242 SIGTERM].
Proof.
  apply (launch_stop (C := example.DummyDaemon) (example_commanded (Some "stop")) "svc" false
           {| obj := example.stale; stdout := [] |} example.stale_world 4242).
  - reflexivity.
  - reflexivity.
  - discriminate.
  - reflexivity.
Defined.

Lemma dry_start_runs_inline_witness :
  ∃ s' w1 d' w',
    check_args dry_run ["start"] "svc" None blank (example.world ∅ []) = Ret tt s' w1
    ∧ launch_command (C := example.DummyDaemon) s' "svc" false
        {| obj := example.idle; stdout := [] |} w1 =
        Ret tt {| obj := d'; stdout := ["Starting svc inline ..."] |} w'
    ∧ daemon.inline d' = true ∧ forks w' = forks (example.world ∅ []) ∧ fs w' = ∅.
Proof.
  destruct (dry_start_runs_inline (C := example.DummyDaemon) dry_run "svc" blank
              {| obj := example.idle; stdout := [] |} (example.world ∅ []))
    as (s' & w1 & Hc & Hf & Hfs & Hl).
  - discriminate.
  - constructor.
  - exists s', w1. eexists _, _. split; [exact Hc|]. split; [rewrite Hl; reflexivity|].
    split; [reflexivity|]. split; [exact Hf|exact Hfs].
Defined.

End LaunchingWitnesses.
